(** * Market signal synthesis: indicator calculator, trend classifier,
      sentiment normaliser and decision fusion

    A shallow embedding of
      - [src/mastra/tools/technical-analysis.ts]
      - [src/mastra/tools/market-sentiment.ts]
      - [src/mastra/tools/trading-recommendation.ts]

    Modelling conventions.
      - A JavaScript [number] that carries a price or an indicator is an exact
        rational ([Q]): the arithmetic of the source is read without rounding,
        and the values NaN and the infinities do not exist.  [Q]'s division is
        total ([x / 0 == 0]); every theorem below that mentions a quotient is
        stated where the divisor is non-zero.  [Module Binary64] repeats the
        momentum oscillator and its classification on binary64 floats, the
        numbers the program runs on, to evaluate them on concrete series.
      - A [number] that is used as a period or an index is an integer ([Z]).
      - [number | null] is [option Q], [None] standing for [null].
      - A [string] is a [String.string]; [===] on strings is [String.eqb].
      - [new Date().toISOString()] is an argument ([now]) of the function that
        reads the clock; the network fetch of [performTechnicalAnalysis] is
        replaced by its result, the list of closing prices. *)

From Stdlib Require Import List String Ascii Bool ZArith QArith Qabs Lia Lqa.
From Stdlib Require Import PrimFloat.
Import ListNotations.

Local Open Scope string_scope.
Local Open Scope Z_scope.
Local Open Scope Q_scope.

(** ** JavaScript primitives used by the tools *)

Module Js.

(** [s.includes(needle)] *)
Fixpoint includes (s needle : string) : bool :=
  match s with
  | EmptyString => String.prefix needle EmptyString
  | String _ rest => String.prefix needle s || includes rest needle
  end.

(** [arr.slice(start)]: a negative [start] counts from the end, and the
    start position is clamped to [0 .. arr.length]. *)
Definition slice {A : Type} (arr : list A) (start : Z) : list A :=
  let len := Z.of_nat (List.length arr) in
  let k := if (start <? 0)%Z then Z.max (len + start) 0 else Z.min start len in
  skipn (Z.to_nat k) arr.

(** [arr.reduce((a, b) => a + b, 0)] *)
Definition sum (arr : list Q) : Q := fold_left Qplus arr 0.

(** [arr.length], as a number *)
Definition length {A : Type} (arr : list A) : Z := Z.of_nat (List.length arr).

(** [a < b] and [a > b] on numbers *)
Definition lt (a b : Q) : bool := negb (Qle_bool b a).
Definition gt (a b : Q) : bool := lt b a.

(** [v ?? 0] *)
Definition nullish0 (v : option Q) : Q :=
  match v with Some x => x | None => 0 end.

(** [v || 0]: [null] and the number zero are both falsy. *)
Definition or0 (v : option Q) : Q :=
  match v with
  | Some x => if Qeq_bool x 0 then 0 else x
  | None => 0
  end.

(** [[...Array(n).fill(0), x]] *)
Definition zeros_then (n : nat) (x : Q) : list Q := repeat 0 n ++ [x].

End Js.

(** ** Indicator calculator ([technical-analysis.ts]) *)

Definition calculateSMA (prices : list Q) (period : Z) : option Q :=
  if (Js.length prices <? period)%Z then None
  else
    let sum := Js.sum (Js.slice prices (Js.length prices - period)) in
    Some (sum / inject_Z period).

(** One turn of the loop of [calculateEMA]. *)
Definition ema_step (k : Q) (ema price : Q) : Q := price * k + ema * (1 - k).

(** [prices[0]] of an empty array is [undefined] and the loop body never runs,
    so the source returns [undefined] there; the guard lets an empty array
    through only when [period <= 0], which no call site passes.  The model
    returns [None] in that corner. *)
Definition calculateEMA (prices : list Q) (period : Z) : option Q :=
  if (Js.length prices <? period)%Z then None
  else
    let k := 2 / inject_Z (period + 1) in
    match prices with
    | [] => None
    | first :: rest => Some (fold_left (ema_step k) rest first)
    end.

Record MACD : Type := mkMACD {
  macd : option Q;
  signal : option Q;
  histogram : option Q
}.

Definition calculateMACD (prices : list Q) : MACD :=
  if (Js.length prices <? 26)%Z then mkMACD None None None
  else
    let ema12 := calculateEMA prices 12 in
    let ema26 := calculateEMA prices 26 in
    match ema12, ema26 with
    | Some ema12, Some ema26 =>
        let macd := ema12 - ema26 in
        let signal := calculateEMA (Js.zeros_then 8 macd) 9 in
        let histogram := macd - Js.or0 signal in
        mkMACD (Some macd) signal (Some histogram)
    | _, _ => mkMACD None None None
    end.

(** The loop that fills [changes]: [prices[i] - prices[i - 1]] for
    [i = 1 .. length - 1]. *)
Fixpoint changes (prices : list Q) : list Q :=
  match prices with
  | prev :: (cur :: _) as rest => (cur - prev) :: changes rest
  | _ => []
  end.

Definition gain (change : Q) : Q := if Js.gt change 0 then change else 0.
Definition loss (change : Q) : Q := if Js.lt change 0 then Qabs change else 0.

Definition calculateRSI (prices : list Q) (period : Z) : option Q :=
  if (Js.length prices <=? period)%Z then None
  else
    let changes := changes prices in
    let gains := map gain changes in
    let losses := map loss changes in
    let avgGain := Js.sum (Js.slice gains (- period)) / inject_Z period in
    let avgLoss := Js.sum (Js.slice losses (- period)) / inject_Z period in
    if Qeq_bool avgLoss 0 then Some 100
    else
      let rs := avgGain / avgLoss in
      let rsi := 100 - 100 / (1 + rs) in
      Some rsi.

(** The default value of the [period] parameter of [calculateRSI]. *)
Definition rsi_default_period : Z := 14.

(** ** Trend classifier ([performTechnicalAnalysis]) *)

Module TechnicalAnalysis.

Record SMAData : Type := mkSMAData {
  sma7 : option Q;
  sma25 : option Q;
  sma99 : option Q;
  aboveSMA7 : bool;
  aboveSMA25 : bool;
  aboveSMA99 : bool
}.

Record ShortTermIndicators : Type := mkShortTermIndicators {
  sma5 : option Q;
  sma10 : option Q;
  ema9 : option Q;
  ema21 : option Q;
  aboveSMA5 : bool;
  aboveSMA10 : bool;
  aboveEMA9 : bool;
  aboveEMA21 : bool;
  macdSignal : string;
  shortTermTrend : string
}.

Record TechnicalIndicators : Type := mkTechnicalIndicators {
  sma : SMAData;
  rsi : option Q;
  rsiSignal : string;
  trend : string;
  shortTerm : option ShortTermIndicators;
  recommendation : option string
}.

Record TechnicalAnalysisResponse : Type := mkTechnicalAnalysisResponse {
  status : string;
  symbol : option string;
  currentPrice : option Q;
  technicalIndicators : option TechnicalIndicators;
  timestamp : option string;
  message : option string
}.

(** [let trend = 'neutral'; if (aboveSMA7 && aboveSMA25 && aboveSMA99) ...] *)
Definition trend_of (aboveSMA7 aboveSMA25 aboveSMA99 : bool) : string :=
  if aboveSMA7 && aboveSMA25 && aboveSMA99 then "strongly bullish"
  else if aboveSMA7 && aboveSMA25 then "bullish"
  else if negb aboveSMA7 && negb aboveSMA25 && negb aboveSMA99
       then "strongly bearish"
  else if negb aboveSMA7 && negb aboveSMA25 then "bearish"
  else "neutral".

(** [let rsiSignal = 'neutral'; if (rsi !== null) { ... }] *)
Definition rsiSignal_of (rsi : option Q) : string :=
  match rsi with
  | Some rsi =>
      if Js.gt rsi 70 then "overbought"
      else if Js.lt rsi 30 then "oversold"
      else "neutral"
  | None => "neutral"
  end.

(** [let shortTermTrend = 'neutral'; if (aboveSMA5 && ...) ...] *)
Definition shortTermTrend_of
  (aboveSMA5 aboveSMA10 aboveEMA9 aboveEMA21 : bool) : string :=
  if aboveSMA5 && aboveSMA10 && aboveEMA9 && aboveEMA21 then "strongly bullish"
  else if (aboveSMA5 && aboveSMA10) || (aboveEMA9 && aboveEMA21) then "bullish"
  else if negb aboveSMA5 && negb aboveSMA10 && negb aboveEMA9 && negb aboveEMA21
       then "strongly bearish"
  else if (negb aboveSMA5 && negb aboveSMA10) || (negb aboveEMA9 && negb aboveEMA21)
       then "bearish"
  else "neutral".

(** [let macdSignal = 'neutral';
     if (histogram !== null && signal !== null && macd !== null) { ... }] *)
Definition macdSignal_of (m : MACD) (currentPrice : Q) : string :=
  match histogram m, signal m, macd m with
  | Some histogram, Some _, Some macd =>
      if Js.gt histogram 0 && Js.gt histogram ((1 # 10000) * currentPrice) then
        if Js.gt macd 0 then "strongly bullish" else "bullish"
      else if Js.lt histogram 0
              && Js.gt (Qabs histogram) ((1 # 10000) * currentPrice) then
        if Js.lt macd 0 then "strongly bearish" else "bearish"
      else "neutral"
  | _, _, _ => "neutral"
  end.

(** [let recommendation = 'neutral'; if (timeframe === '1m') { ... }] *)
Definition recommendation_of
  (timeframe shortTermTrend macdSignal : string) (shortTermRSI : option Q)
  : string :=
  if (timeframe =? "1m")%string then
    if (Js.includes shortTermTrend "bullish" && Js.includes macdSignal "bullish")
       || (match shortTermRSI with
           | Some r => Js.lt r 30 && Js.includes shortTermTrend "bullish"
           | None => false
           end)
    then "LONG"
    else if (Js.includes shortTermTrend "bearish"
             && Js.includes macdSignal "bearish")
            || (match shortTermRSI with
                | Some r => Js.gt r 70 && Js.includes shortTermTrend "bearish"
                | None => false
                end)
    then "SHORT"
    else "neutral"
  else "neutral".

(** [['1m', '5m', '15m', 'hourly'].includes(timeframe)] *)
Definition intraday (timeframe : string) : bool :=
  existsb (String.eqb timeframe) ["1m"; "5m"; "15m"; "hourly"].

(** The block guarded by [intraday]: the short-term indicators and the
    short-horizon recommendation. *)
Definition shortTerm_of (timeframe : string) (prices : list Q) (currentPrice : Q)
  : ShortTermIndicators * string :=
  let shortTermRSI := calculateRSI prices 7 in
  let sma5 := calculateSMA prices 5 in
  let sma10 := calculateSMA prices 10 in
  let ema9 := calculateEMA prices 9 in
  let ema21 := calculateEMA prices 21 in
  let m := calculateMACD prices in
  let aboveSMA5 := Js.gt currentPrice (Js.nullish0 sma5) in
  let aboveSMA10 := Js.gt currentPrice (Js.nullish0 sma10) in
  let aboveEMA9 := Js.gt currentPrice (Js.nullish0 ema9) in
  let aboveEMA21 := Js.gt currentPrice (Js.nullish0 ema21) in
  let shortTermTrend := shortTermTrend_of aboveSMA5 aboveSMA10 aboveEMA9 aboveEMA21 in
  let macdSignal := macdSignal_of m currentPrice in
  let recommendation :=
    recommendation_of timeframe shortTermTrend macdSignal shortTermRSI in
  (mkShortTermIndicators sma5 sma10 ema9 ema21
     aboveSMA5 aboveSMA10 aboveEMA9 aboveEMA21 macdSignal shortTermTrend,
   recommendation).

(** [performTechnicalAnalysis] from the point where [data] has arrived:
    [prices] is [data.map((kline) => parseFloat(kline[4]))]. *)
Definition performTechnicalAnalysis
  (symbol timeframe : string) (prices : list Q) (now : string)
  : TechnicalAnalysisResponse :=
  match prices with
  | [] =>
      mkTechnicalAnalysisResponse "error" None None None None
        (Some "No price data available")
  | _ :: _ =>
      let currentPrice := List.last prices 0 in
      let sma7 := calculateSMA prices 7 in
      let sma25 := calculateSMA prices 25 in
      let sma99 := calculateSMA prices (Z.min 99 (Js.length prices - 1)) in
      let rsi := calculateRSI prices rsi_default_period in
      let aboveSMA7 := Js.gt currentPrice (Js.nullish0 sma7) in
      let aboveSMA25 := Js.gt currentPrice (Js.nullish0 sma25) in
      let aboveSMA99 := Js.gt currentPrice (Js.nullish0 sma99) in
      let trend := trend_of aboveSMA7 aboveSMA25 aboveSMA99 in
      let rsiSignal := rsiSignal_of rsi in
      let sma := mkSMAData sma7 sma25 sma99 aboveSMA7 aboveSMA25 aboveSMA99 in
      let indicators :=
        if intraday timeframe then
          let '(shortTerm, recommendation) :=
            shortTerm_of timeframe prices currentPrice in
          mkTechnicalIndicators sma rsi rsiSignal trend
            (Some shortTerm) (Some recommendation)
        else mkTechnicalIndicators sma rsi rsiSignal trend None None in
      mkTechnicalAnalysisResponse "success" (Some symbol) (Some currentPrice)
        (Some indicators) (Some now) None
  end.

End TechnicalAnalysis.

(** ** The momentum oscillator on binary64 floats

    [calculateRSI] and the momentum-signal block of [performTechnicalAnalysis]
    once more, with [number] read as a binary64 float. *)

Module Binary64.

(** The float of a positive integer below [2^53]. *)
Fixpoint of_pos (p : positive) : float :=
  match p with
  | xH => 1%float
  | xO q => (2 * of_pos q)%float
  | xI q => (2 * of_pos q + 1)%float
  end.

(** The float of a period. *)
Definition of_Z (z : Z) : float :=
  match z with
  | Z0 => 0%float
  | Zpos p => of_pos p
  | Zneg p => (- of_pos p)%float
  end.

Definition sum (arr : list float) : float := fold_left PrimFloat.add arr 0%float.

Fixpoint changes (prices : list float) : list float :=
  match prices with
  | prev :: (cur :: _) as rest => (cur - prev)%float :: changes rest
  | _ => []
  end.

Definition gain (change : float) : float :=
  if (0 <? change)%float then change else 0%float.
Definition loss (change : float) : float :=
  if (change <? 0)%float then PrimFloat.abs change else 0%float.

Definition calculateRSI (prices : list float) (period : Z) : option float :=
  if (Js.length prices <=? period)%Z then None
  else
    let changes := changes prices in
    let gains := map gain changes in
    let losses := map loss changes in
    let avgGain := (sum (Js.slice gains (- period)) / of_Z period)%float in
    let avgLoss := (sum (Js.slice losses (- period)) / of_Z period)%float in
    if (avgLoss =? 0)%float then Some 100%float
    else
      let rs := (avgGain / avgLoss)%float in
      let rsi := (100 - 100 / (1 + rs))%float in
      Some rsi.

Definition rsiSignal_of (rsi : option float) : string :=
  match rsi with
  | Some rsi =>
      if (70 <? rsi)%float then "overbought"
      else if (rsi <? 30)%float then "oversold"
      else "neutral"
  | None => "neutral"
  end.

Definition series_rsi_30 : list float :=
  [100; 93; 96; 96; 96; 96; 96; 96; 96; 96; 96; 96; 96; 96; 96]%float.
Definition series_rsi_70 : list float :=
  [100; 97; 104; 104; 104; 104; 104; 104; 104; 104; 104; 104; 104; 104; 104]%float.

End Binary64.

(** ** Sentiment normaliser ([market-sentiment.ts]) *)

Module MarketSentiment.

(** One element of [data.data], with [value] already through [parseInt]:
    [None] stands for the NaN that [parseInt] gives on a non-numeric string. *)
Module Api.
Record Entry : Type := mkEntry {
  value : option Z;
  value_classification : string;
  timestamp : string;
  time_until_update : string
}.
End Api.

Record FearGreedIndex : Type := mkFearGreedIndex {
  value : option Z;
  description : string;
  classification : string
}.

Record MarketSentimentData : Type := mkMarketSentimentData {
  globalFearGreedIndex : FearGreedIndex;
  interpretation : string;
  timestamp : string;
  timeUpdated : string
}.

Record MarketSentimentResponse : Type := mkMarketSentimentResponse {
  status : string;
  symbol : string;
  marketSentimentData : option MarketSentimentData;
  message : option string
}.

(** [let fearGreedDescription = 'Neutral'; if (fearGreedIndex >= 0 && ...) ...];
    every comparison with NaN is false. *)
Definition fearGreedDescription_of (fearGreedIndex : option Z) : string :=
  match fearGreedIndex with
  | None => "Neutral"
  | Some i =>
      if (0 <=? i)%Z && (i <=? 25)%Z then "Extreme Fear"
      else if (25 <? i)%Z && (i <=? 45)%Z then "Fear"
      else if (45 <? i)%Z && (i <=? 55)%Z then "Neutral"
      else if (55 <? i)%Z && (i <=? 75)%Z then "Greed"
      else if (75 <? i)%Z && (i <=? 100)%Z then "Extreme Greed"
      else "Neutral"
  end.

(** [let marketSentiment = 'neutral'; if (fearGreedDescription === ...) ...] *)
Definition marketSentiment_of (fearGreedDescription : string) : string :=
  if (fearGreedDescription =? "Extreme Fear")%string
  then "extremely bearish (potentially oversold)"
  else if (fearGreedDescription =? "Fear")%string then "bearish"
  else if (fearGreedDescription =? "Greed")%string then "bullish"
  else if (fearGreedDescription =? "Extreme Greed")%string
  then "extremely bullish (potentially overbought)"
  else "neutral".

(** [analyzeMarketSentiment] from the point where the response body has
    arrived: [entries] is [data.data] (an absent field reads as no entry). *)
Definition analyzeMarketSentiment (symbol : string) (entries : list Api.Entry)
  : MarketSentimentResponse :=
  match entries with
  | [] =>
      mkMarketSentimentResponse "error" symbol None
        (Some "No market sentiment data available")
  | e :: _ =>
      let fearGreedIndex := Api.value e in
      let fearGreedDescription := fearGreedDescription_of fearGreedIndex in
      let marketSentiment := marketSentiment_of fearGreedDescription in
      mkMarketSentimentResponse "success" symbol
        (Some (mkMarketSentimentData
                 (mkFearGreedIndex fearGreedIndex fearGreedDescription
                    (Api.value_classification e))
                 marketSentiment (Api.timestamp e) (Api.time_until_update e)))
        None
  end.

(** The interpretations the normaliser can produce. *)
Definition interpretations : list string :=
  [ "extremely bearish (potentially oversold)"; "bearish"; "neutral";
    "bullish"; "extremely bullish (potentially overbought)" ].

End MarketSentiment.

(** ** Decision fusion ([trading-recommendation.ts]) *)

Module TradingRecommendation.

(** The payload of [technicalDataSchema]. *)
Module Technical.
Record Sma : Type := mkSma {
  sma7 : option Q;
  sma25 : option Q;
  sma99 : option Q;
  aboveSMA7 : bool;
  aboveSMA25 : bool;
  aboveSMA99 : bool
}.
Record Indicators : Type := mkIndicators {
  sma : Sma;
  rsi : option Q;
  rsiSignal : string;
  trend : string
}.
Record DataInput : Type := mkDataInput {
  symbol : string;
  currentPrice : Q;
  technicalIndicators : Indicators
}.
End Technical.

(** The payload of [sentimentDataSchema]. *)
Module Sentiment.
Record FearGreedIndex : Type := mkFearGreedIndex {
  value : Q;
  description : string;
  classification : string
}.
Record MarketSentimentData : Type := mkMarketSentimentData {
  globalFearGreedIndex : FearGreedIndex;
  interpretation : string;
  timestamp : string;
  timeUpdated : string
}.
Record DataInput : Type := mkDataInput {
  symbol : string;
  marketSentimentData : MarketSentimentData
}.
End Sentiment.

Record SMAValues : Type := mkSMAValues {
  sma7 : option Q;
  sma25 : option Q;
  sma99 : option Q
}.

Record SMAPositions : Type := mkSMAPositions {
  aboveSMA7 : bool;
  aboveSMA25 : bool;
  aboveSMA99 : bool
}.

Record SMAData : Type := mkSMAData {
  values : SMAValues;
  positions : SMAPositions
}.

Record TechnicalSupportData : Type := mkTechnicalSupportData {
  trend : string;
  rsi : option Q;
  rsiSignal : string;
  sma : SMAData
}.

Record SentimentSupportData : Type := mkSentimentSupportData {
  marketSentiment : string;
  fearGreedIndex : Q;
  fearGreedDescription : string
}.

Record SupportingData : Type := mkSupportingData {
  technical : TechnicalSupportData;
  sentiment : SentimentSupportData
}.

Record Recommendation : Type := mkRecommendation {
  signal : string;
  confidenceLevel : string;
  recommendedTimeframe : string;
  technicalAnalysisSignal : string;
  marketSentimentSignal : string;
  timestamp : string
}.

Record TradingRecommendationResponse : Type := mkTradingRecommendationResponse {
  status : string;
  symbol : option string;
  recommendation : option Recommendation;
  supportingData : option SupportingData;
  message : option string
}.

(** [let technicalSignal = "LONG"; ...] and the overbought/oversold override. *)
Definition technicalSignal_of (trend rsiSignal : string) : string :=
  let technicalSignal := "LONG" in
  let technicalSignal :=
    if (trend =? "strongly bullish")%string || (trend =? "bullish")%string
    then "LONG"
    else if (trend =? "strongly bearish")%string || (trend =? "bearish")%string
    then "SHORT"
    else technicalSignal in
  if (rsiSignal =? "overbought")%string && (technicalSignal =? "LONG")%string
  then "SHORT"
  else if (rsiSignal =? "oversold")%string && (technicalSignal =? "SHORT")%string
  then "LONG"
  else technicalSignal.

(** [let sentimentSignal = "LONG"; if (marketSentiment.includes("bullish")) ...] *)
Definition sentimentSignal_of (marketSentiment : string) : string :=
  let sentimentSignal := "LONG" in
  if Js.includes marketSentiment "bullish" then
    if Js.includes marketSentiment "extremely"
       && Js.includes marketSentiment "overbought"
    then "SHORT" else "LONG"
  else if Js.includes marketSentiment "bearish" then
    if Js.includes marketSentiment "extremely"
       && Js.includes marketSentiment "oversold"
    then "LONG" else "SHORT"
  else sentimentSignal.

(** [let finalSignal = "LONG"; if (technicalSignal === sentimentSignal) ...] *)
Definition finalSignal_of (technicalSignal sentimentSignal : string) : string :=
  if (technicalSignal =? sentimentSignal)%string then technicalSignal
  else technicalSignal.

(** [let recommendedTimeframe = "medium-term"; ...] *)
Definition recommendedTimeframe_of (finalSignal trend : string) : string :=
  if (finalSignal =? "LONG")%string && (trend =? "strongly bullish")%string
  then "long-term"
  else if (finalSignal =? "SHORT")%string && (trend =? "strongly bearish")%string
  then "short-term"
  else "medium-term".

(** [let confidenceLevel = "medium"; ...] *)
Definition confidenceLevel_of
  (technicalSignal sentimentSignal trend marketSentiment : string) : string :=
  if (technicalSignal =? sentimentSignal)%string
     && (Js.includes trend "strongly" || Js.includes marketSentiment "extremely")
  then "high"
  else if negb (technicalSignal =? sentimentSignal)%string then "low"
  else "medium".

(** [generateTradingRecommendation].  Nothing in the body of the [try] throws
    on a payload that has passed the schemas, so the [catch] arm is not
    reachable in the model. *)
Definition generateTradingRecommendation
  (technicalData : Technical.DataInput) (sentimentData : Sentiment.DataInput)
  (now : string) : TradingRecommendationResponse :=
  let technicalIndicators := Technical.technicalIndicators technicalData in
  let marketSentimentData := Sentiment.marketSentimentData sentimentData in
  let trend := Technical.trend technicalIndicators in
  let rsiSignal := Technical.rsiSignal technicalIndicators in
  let marketSentiment := Sentiment.interpretation marketSentimentData in
  let technicalSignal := technicalSignal_of trend rsiSignal in
  let sentimentSignal := sentimentSignal_of marketSentiment in
  let finalSignal := finalSignal_of technicalSignal sentimentSignal in
  let recommendedTimeframe := recommendedTimeframe_of finalSignal trend in
  let confidenceLevel :=
    confidenceLevel_of technicalSignal sentimentSignal trend marketSentiment in
  let s := Technical.sma technicalIndicators in
  mkTradingRecommendationResponse "success"
    (Some (Technical.symbol technicalData))
    (Some (mkRecommendation finalSignal confidenceLevel recommendedTimeframe
             technicalSignal sentimentSignal now))
    (Some (mkSupportingData
             (mkTechnicalSupportData
                (Technical.trend technicalIndicators)
                (Technical.rsi technicalIndicators)
                (Technical.rsiSignal technicalIndicators)
                (mkSMAData
                   (mkSMAValues (Technical.sma7 s) (Technical.sma25 s)
                      (Technical.sma99 s))
                   (mkSMAPositions (Technical.aboveSMA7 s) (Technical.aboveSMA25 s)
                      (Technical.aboveSMA99 s))))
             (mkSentimentSupportData
                (Sentiment.interpretation marketSentimentData)
                (Sentiment.value (Sentiment.globalFearGreedIndex marketSentimentData))
                (Sentiment.description
                   (Sentiment.globalFearGreedIndex marketSentimentData)))))
    None.

End TradingRecommendation.

(** ** Reference definitions

    The notions the contracts are stated with, written independently of the
    code above. *)

Module Ref.

(** The last [n] elements of a list. *)
Definition lastN {A : Type} (n : nat) (l : list A) : list A :=
  rev (firstn n (rev l)).

(** The sum of a list, element by element from the right. *)
Fixpoint total (l : list Q) : Q :=
  match l with
  | [] => 0
  | x :: rest => x + total rest
  end.

(** The arithmetic mean of a list. *)
Definition mean (l : list Q) : Q := total l / inject_Z (Z.of_nat (List.length l)).

(** The recurrence [ema[0] = price[0]],
    [ema[i] = price[i] * k + ema[i-1] * (1 - k)]. *)
Fixpoint ema (k : Q) (price : list Q) (i : nat) : Q :=
  match i with
  | O => nth 0 price 0
  | S j => nth i price 0 * k + ema k price j * (1 - k)
  end.

(** The smoothing constant of a [P]-period average. *)
Definition smoothing (P : Z) : Q := 2 / inject_Z (P + 1).

(** The price deltas [price[i+1] - price[i]], by index. *)
Definition deltas (price : list Q) : list Q :=
  map (fun i => nth (S i) price 0 - nth i price 0) (seq 0 (List.length price - 1)).

(** The gain and the loss carried by a delta: its positive and its negative
    part. *)
Definition gainOf (d : Q) : Q := (Qabs d + d) / 2.
Definition lossOf (d : Q) : Q := (Qabs d - d) / 2.

(** Direction of a trend label before the momentum override. *)
Definition trendDirection (trend : string) : string :=
  if existsb (String.eqb trend) ["bullish"; "strongly bullish"] then "LONG"
  else if existsb (String.eqb trend) ["bearish"; "strongly bearish"] then "SHORT"
  else "LONG".

(** The overbought / oversold override of a direction. *)
Definition momentumOverride (momentum direction : string) : string :=
  if (direction =? "LONG")%string then
    if (momentum =? "overbought")%string then "SHORT" else direction
  else if (direction =? "SHORT")%string then
    if (momentum =? "oversold")%string then "LONG" else direction
  else direction.

(** The two extreme sentiment labels, as the normaliser words them. *)
Definition extremelyBullish : string := "extremely bullish (potentially overbought)".
Definition extremelyBearish : string := "extremely bearish (potentially oversold)".

(** Direction of a sentiment label. *)
Definition sentimentDirection (label : string) : string :=
  if Js.includes label "bullish" then
    if (label =? extremelyBullish)%string then "SHORT" else "LONG"
  else if Js.includes label "bearish" then
    if (label =? extremelyBearish)%string then "LONG" else "SHORT"
  else "LONG".

(** Confidence of a recommendation, disagreement first. *)
Definition confidence (technical sentiment trend label : string) : string :=
  if negb (technical =? sentiment)%string then "low"
  else if Js.includes trend "strongly" || Js.includes label "extremely" then "high"
  else "medium".

End Ref.

(** A price series whose 14-period oscillator is exactly 30, and one where it
    is exactly 70. *)
Definition series_rsi_30 : list Q :=
  [100; 93; 96; 96; 96; 96; 96; 96; 96; 96; 96; 96; 96; 96; 96].
Definition series_rsi_70 : list Q :=
  [100; 97; 104; 104; 104; 104; 104; 104; 104; 104; 104; 104; 104; 104; 104].

(** Twenty-six prices climbing from 1 to 26, and the first three of them. *)
Definition climb26 : list Q :=
  [1; 2; 3; 4; 5; 6; 7; 8; 9; 10; 11; 12; 13; 14; 15; 16; 17; 18; 19; 20;
   21; 22; 23; 24; 25; 26].
Definition climb3 : list Q := [1; 2; 3].

(** Eight identical prices. *)
Definition flat8 : list Q := [10; 10; 10; 10; 10; 10; 10; 10].

(** A technical payload and a sentiment payload for [generateTradingRecommendation]. *)
Definition technicalPayload (trend rsiSignal : string)
  : TradingRecommendation.Technical.DataInput :=
  TradingRecommendation.Technical.mkDataInput "BTC" 100
    (TradingRecommendation.Technical.mkIndicators
       (TradingRecommendation.Technical.mkSma None None None true true true)
       None rsiSignal trend).

Definition sentimentPayload (interpretation : string)
  : TradingRecommendation.Sentiment.DataInput :=
  TradingRecommendation.Sentiment.mkDataInput "BTC"
    (TradingRecommendation.Sentiment.mkMarketSentimentData
       (TradingRecommendation.Sentiment.mkFearGreedIndex 50 "Neutral" "Neutral")
       interpretation "0" "0").

(** ** Symbol formatting ([formatBinanceSymbol])

    [String.prototype.toUpperCase] is an argument of the two functions: on
    text outside ASCII it follows the Unicode case tables.  [toUpperCaseAscii]
    is what it does on ASCII text. *)

Module BinanceSymbol.

(** [c] matches [[A-Z0-9]]. *)
Definition isUpperAlnum (c : ascii) : bool :=
  let n := nat_of_ascii c in
  ((65 <=? n)%nat && (n <=? 90)%nat) || ((48 <=? n)%nat && (n <=? 57)%nat).

(** [s.replace(/[^A-Z0-9]/g, '')] *)
Fixpoint stripNonAlnum (s : string) : string :=
  match s with
  | EmptyString => EmptyString
  | String c rest =>
      if isUpperAlnum c then String c (stripNonAlnum rest)
      else stripNonAlnum rest
  end.

Definition upperAscii (c : ascii) : ascii :=
  let n := nat_of_ascii c in
  if (97 <=? n)%nat && (n <=? 122)%nat then ascii_of_nat (n - 32) else c.

Definition lowerAscii (c : ascii) : ascii :=
  let n := nat_of_ascii c in
  if (65 <=? n)%nat && (n <=? 90)%nat then ascii_of_nat (n + 32) else c.

Fixpoint mapString (f : ascii -> ascii) (s : string) : string :=
  match s with
  | EmptyString => EmptyString
  | String c rest => String (f c) (mapString f rest)
  end.

(** [s.toUpperCase()] and [s.toLowerCase()] on ASCII text *)
Definition toUpperCaseAscii (s : string) : string := mapString upperAscii s.
Definition toLowerCaseAscii (s : string) : string := mapString lowerAscii s.

(** Every character of [s] is an ASCII character. *)
Fixpoint isAscii (s : string) : bool :=
  match s with
  | EmptyString => true
  | String c rest => (nat_of_ascii c <? 128)%nat && isAscii rest
  end.

(** Every character of [s] matches [[A-Z0-9]]. *)
Fixpoint allUpperAlnum (s : string) : bool :=
  match s with
  | EmptyString => true
  | String c rest => isUpperAlnum c && allUpperAlnum rest
  end.

(** [const normalizedSymbol = symbol.toUpperCase().replace(/[^A-Z0-9]/g, '')] *)
Definition normalizedSymbol (toUpperCase : string -> string) (symbol : string)
  : string :=
  stripNonAlnum (toUpperCase symbol).

(** [formatBinanceSymbol] of [technical-analysis.ts] *)
Module Klines.
Definition formatBinanceSymbol (toUpperCase : string -> string) (symbol : string)
  : string :=
  (normalizedSymbol toUpperCase symbol ++ "USDC")%string.
End Klines.

(** [formatBinanceSymbol] of the price tool *)
Module Ticker.
Definition formatBinanceSymbol (toUpperCase : string -> string) (symbol : string)
  : string :=
  (normalizedSymbol toUpperCase symbol ++ "USDT")%string.
End Ticker.

End BinanceSymbol.

(** ** Answer submission ([processGame]) *)

Module Game.

(** What [processGame] does to the outside world. *)
Inductive Effect : Type :=
| InsertAnswer (answer : string).

(** What the agent call and [JSON.parse] give: an exception, or an object
    whose [recommendation] field is a string ([Some]) or anything else
    ([None]: absent, or not a string). *)
Inductive AgentResponse : Type :=
| Thrown
| Parsed (recommendation : option string).

(** The check on [response.recommendation] and the payload of [insertAnswer].
    [toLowerCase] is reached only with one of the two ASCII words. *)
Definition answerOf (recommendation : option string) : option string :=
  match recommendation with
  | Some r =>
      if negb (r =? "LONG")%string && negb (r =? "SHORT")%string then None
      else Some (BinanceSymbol.toLowerCaseAscii r)
  | None => None
  end.

(** [processGame]: [gameFound] is whether [fetchGame] returned a game. *)
Definition processGame (gameFound : bool) (response : AgentResponse)
  : list Effect :=
  if negb gameFound then []
  else
    match response with
    | Thrown => []
    | Parsed recommendation =>
        match answerOf recommendation with
        | None => []
        | Some answer => [InsertAnswer answer]
        end
    end.

End Game.

(** ** Reconnecting socket client ([WebSocketService])

    The service is its four fields; a method or a socket callback is a
    function from the service to the service after it and the effects it
    had.  [socket] records the ready state of the socket the field refers to.
    A fresh timer handle is an argument of what calls [setTimeout]. *)

Module WebSocketService.

Definition RECONNECT_INTERVAL : Z := 3000.
Definition MAX_RECONNECT_ATTEMPTS : Z := 5.

Inductive ReadyState : Type := CONNECTING | OPEN | CLOSING | CLOSED.

Definition Timer : Type := nat.
Definition Handler : Type := nat.

Record Service : Type := mkService {
  socket : option ReadyState;
  reconnectAttempts : Z;
  reconnectTimeout : option Timer;
  messageHandlers : list Handler
}.

Inductive Effect : Type :=
| ClearTimeout (t : Timer)
| SetTimeout (t : Timer) (ms : Z)
| SocketSend
| SocketClose
| Call (h : Handler)
| Resolve
| Reject.

(** [new WebSocketService()] *)
Definition initial : Service := mkService None 0 None [].

Definition isOpen (s : option ReadyState) : bool :=
  match s with Some OPEN => true | _ => false end.

(** [if (this.reconnectTimeout) { clearTimeout(this.reconnectTimeout); }] *)
Definition clearPending (s : Service) : list Effect :=
  match reconnectTimeout s with
  | Some t => [ClearTimeout t]
  | None => []
  end.

Definition attemptReconnect (fresh : Timer) (s : Service) : Service * list Effect :=
  if (MAX_RECONNECT_ATTEMPTS <=? reconnectAttempts s)%Z then (s, clearPending s)
  else
    (mkService (socket s) (reconnectAttempts s + 1)%Z (Some fresh)
       (messageHandlers s),
     (clearPending s ++ [SetTimeout fresh RECONNECT_INTERVAL])%list).

(** [connect]: [throws] is whether [new WebSocket(WS_URL)] throws. *)
Definition connect (throws : bool) (fresh : Timer) (s : Service)
  : Service * list Effect :=
  if throws then
    let '(s', effects) := attemptReconnect fresh s in
    (s', (effects ++ [Reject])%list)
  else
    (mkService (Some CONNECTING) (reconnectAttempts s) (reconnectTimeout s)
       (messageHandlers s), []).

(** The ready state after the socket has opened or closed, when the field
    still refers to a socket. *)
Definition settle (state : ReadyState) (s : Service) : Service :=
  mkService (match socket s with Some _ => Some state | None => None end)
    (reconnectAttempts s) (reconnectTimeout s) (messageHandlers s).

(** [this.socket.onopen] *)
Definition onopen (s : Service) : Service * list Effect :=
  let s := settle OPEN s in
  (mkService (socket s) 0 (reconnectTimeout s) (messageHandlers s), [Resolve]).

(** [this.socket.onmessage]: [parsed] is whether [JSON.parse] succeeds. *)
Definition onmessage (parsed : bool) (s : Service) : Service * list Effect :=
  (s, if parsed then map Call (messageHandlers s) else []).

(** [this.socket.onerror] *)
Definition onerror (s : Service) : Service * list Effect := (s, [Reject]).

(** [this.socket.onclose] *)
Definition onclose (fresh : Timer) (s : Service) : Service * list Effect :=
  attemptReconnect fresh (settle CLOSED s).

(** [send]: [throws] is whether [this.socket.send] throws. *)
Definition send (throws : bool) (s : Service) : bool * list Effect :=
  if negb (isOpen (socket s)) then (false, [])
  else if throws then (false, [])
  else (true, [SocketSend]).

Definition onMessage (handler : Handler) (s : Service) : Service :=
  mkService (socket s) (reconnectAttempts s) (reconnectTimeout s)
    (messageHandlers s ++ [handler])%list.

Definition removeMessageHandler (handler : Handler) (s : Service) : Service :=
  mkService (socket s) (reconnectAttempts s) (reconnectTimeout s)
    (filter (fun h => negb (h =? handler)%nat) (messageHandlers s)).

Definition disconnect (s : Service) : Service * list Effect :=
  (mkService None (reconnectAttempts s) None (messageHandlers s),
   (clearPending s
    ++ match socket s with Some _ => [SocketClose] | None => [] end)%list).

(** What can happen to the service: a method call, a socket callback, or the
    reconnect timer firing (which calls [connect]). *)
Inductive Event : Type :=
| DoConnect (throws : bool)
| TimerFired (throws : bool)
| Opened
| Received (parsed : bool)
| Errored
| Closed
| DoSend (throws : bool)
| DoOnMessage (handler : Handler)
| DoRemoveMessageHandler (handler : Handler)
| DoDisconnect.

Definition step (fresh : Timer) (e : Event) (s : Service) : Service * list Effect :=
  match e with
  | DoConnect throws | TimerFired throws => connect throws fresh s
  | Opened => onopen s
  | Received parsed => onmessage parsed s
  | Errored => onerror s
  | Closed => onclose fresh s
  | DoSend throws => (s, snd (send throws s))
  | DoOnMessage h => (onMessage h s, [])
  | DoRemoveMessageHandler h => (removeMessageHandler h s, [])
  | DoDisconnect => disconnect s
  end.

(** A run of events; the [n]-th event of a run gets the timer handle [n]. *)
Fixpoint run (fresh : Timer) (events : list Event) (s : Service)
  : Service * list Effect :=
  match events with
  | [] => (s, [])
  | e :: rest =>
      let '(s1, effects1) := step fresh e s in
      let '(s2, effects2) := run (S fresh) rest s1 in
      (s2, (effects1 ++ effects2)%list)
  end.

Definition isSetTimeout (e : Effect) : bool :=
  match e with SetTimeout _ _ => true | _ => false end.

Definition isOpened (e : Event) : bool :=
  match e with Opened => true | _ => false end.

(** The reconnects a list of effects schedules. *)
Definition scheduled (effects : list Effect) : nat :=
  List.length (filter isSetTimeout effects).

End WebSocketService.


(** The count of reconnection attempts is within its range. *)
Definition attempts_ok (s : WebSocketService.Service) : Prop :=
  (0 <= WebSocketService.reconnectAttempts s
   <= WebSocketService.MAX_RECONNECT_ATTEMPTS)%Z.

(** A connection that is refused seven times in a row. *)
Definition sevenCloses : list WebSocketService.Event :=
  [WebSocketService.DoConnect false;
   WebSocketService.Closed; WebSocketService.TimerFired false;
   WebSocketService.Closed; WebSocketService.TimerFired false;
   WebSocketService.Closed; WebSocketService.TimerFired false;
   WebSocketService.Closed; WebSocketService.TimerFired false;
   WebSocketService.Closed; WebSocketService.TimerFired false;
   WebSocketService.Closed; WebSocketService.Closed].

(** Fifteen prices that never fall, and fifteen that never rise. *)
Definition rising15 : list Q :=
  [1; 2; 3; 4; 5; 6; 7; 8; 9; 10; 11; 12; 13; 14; 15].
Definition falling15 : list Q :=
  [15; 14; 13; 12; 11; 10; 9; 8; 7; 6; 5; 4; 3; 2; 1].

(** ** Strings *)

Section Includes.

Lemma prefix_app (n s : string) :
  String.prefix n s = true <-> exists b, s = (n ++ b)%string.
Proof.
  revert s; induction n as [|c n IH]; intros s; simpl.
  - split; [intros _; now exists s | now destruct s].
  - destruct s as [|d s]; simpl;
      [split; [discriminate | intros [b Hb]; discriminate]|].
    destruct (Ascii.ascii_dec c d) as [->|Hcd].
    + rewrite IH. split; intros [b Hb]; exists b; congruence.
    + split; [discriminate | intros [b Hb]; congruence].
Qed.

(** [Js.includes] is the substring test. *)
Lemma includes_substring (s n : string) :
  Js.includes s n = true <-> exists a b, s = (a ++ n ++ b)%string.
Proof.
  induction s as [|c s IH]; cbn [Js.includes].
  - rewrite prefix_app. split.
    + intros [b Hb]. now exists EmptyString, b.
    + intros [a [b Hab]]. destruct a; [now exists b | discriminate].
  - rewrite orb_true_iff, IH, prefix_app. split.
    + intros [[b Hb] | [a [b Hab]]].
      * now exists EmptyString, b.
      * exists (String c a), b. simpl. now rewrite Hab.
    + intros [a [b Hab]]. destruct a as [|d a]; simpl in Hab.
      * left. now exists b.
      * right. exists a, b. congruence.
Qed.

End Includes.

(** ** Decision fusion *)

Section Fusion.

Import TradingRecommendation.

Ltac string_cases :=
  repeat match goal with
    | |- context [(?a =? ?b)%string] =>
        is_var a; destruct (String.eqb_spec a b); subst; cbn
    end.

(** A successful call always carries a recommendation. *)
Lemma generate_recommendation td sd now :
  recommendation (generateTradingRecommendation td sd now)
  = Some (mkRecommendation
            (finalSignal_of
               (technicalSignal_of (Technical.trend (Technical.technicalIndicators td))
                  (Technical.rsiSignal (Technical.technicalIndicators td)))
               (sentimentSignal_of
                  (Sentiment.interpretation (Sentiment.marketSentimentData sd))))
            (confidenceLevel_of
               (technicalSignal_of (Technical.trend (Technical.technicalIndicators td))
                  (Technical.rsiSignal (Technical.technicalIndicators td)))
               (sentimentSignal_of
                  (Sentiment.interpretation (Sentiment.marketSentimentData sd)))
               (Technical.trend (Technical.technicalIndicators td))
               (Sentiment.interpretation (Sentiment.marketSentimentData sd)))
            (recommendedTimeframe_of
               (finalSignal_of
                  (technicalSignal_of (Technical.trend (Technical.technicalIndicators td))
                     (Technical.rsiSignal (Technical.technicalIndicators td)))
                  (sentimentSignal_of
                     (Sentiment.interpretation (Sentiment.marketSentimentData sd))))
               (Technical.trend (Technical.technicalIndicators td)))
            (technicalSignal_of (Technical.trend (Technical.technicalIndicators td))
               (Technical.rsiSignal (Technical.technicalIndicators td)))
            (sentimentSignal_of
               (Sentiment.interpretation (Sentiment.marketSentimentData sd)))
            now).
Proof. reflexivity. Qed.

Lemma finalSignal_technical t s : finalSignal_of t s = t.
Proof. unfold finalSignal_of. now destruct (t =? s)%string. Qed.

Lemma technicalSignal_direction trend rsiSignal :
  technicalSignal_of trend rsiSignal = "LONG"
  \/ technicalSignal_of trend rsiSignal = "SHORT".
Proof. unfold technicalSignal_of. string_cases; simpl; auto. Qed.

Lemma sentimentSignal_direction ms :
  sentimentSignal_of ms = "LONG" \/ sentimentSignal_of ms = "SHORT".
Proof.
  unfold sentimentSignal_of.
  destruct (Js.includes ms "bullish"), (Js.includes ms "bearish"),
    (Js.includes ms "extremely"), (Js.includes ms "overbought"),
    (Js.includes ms "oversold"); simpl; auto.
Qed.

(** The sentiment direction on an arbitrary text: the flip is decided by the
    words "extremely" and "overbought" (or "oversold"), and "bullish" is looked
    for first. *)
Lemma sentimentSignal_text ms :
  sentimentSignal_of ms =
    if Js.includes ms "bullish" then
      if Js.includes ms "extremely" && Js.includes ms "overbought"
      then "SHORT" else "LONG"
    else if Js.includes ms "bearish" then
      if Js.includes ms "extremely" && Js.includes ms "oversold"
      then "LONG" else "SHORT"
    else "LONG".
Proof. reflexivity. Qed.

Lemma marketSentiment_of_range d :
  In (MarketSentiment.marketSentiment_of d) MarketSentiment.interpretations.
Proof.
  unfold MarketSentiment.marketSentiment_of, MarketSentiment.interpretations.
  string_cases; simpl; auto 6.
Qed.

Lemma sentimentSignal_labels label :
  In label MarketSentiment.interpretations ->
  sentimentSignal_of label = Ref.sentimentDirection label.
Proof.
  unfold MarketSentiment.interpretations; simpl.
  intros [<-|[<-|[<-|[<-|[<-|[]]]]]]; reflexivity.
Qed.

(** C1. Tie-break of decision fusion: the final signal of every
    recommendation is its technical signal, whatever the sentiment payload;
    the sentiment signal is reported next to it and two calls that differ only
    in the sentiment payload (and the clock) give the same final signal. *)
Theorem C1_final_signal_is_technical :
  forall td sd now,
  exists r,
    recommendation (generateTradingRecommendation td sd now) = Some r
    /\ signal r = technicalAnalysisSignal r
    /\ marketSentimentSignal r
       = sentimentSignal_of
           (Sentiment.interpretation (Sentiment.marketSentimentData sd))
    /\ forall sd' now',
       exists r',
         recommendation (generateTradingRecommendation td sd' now') = Some r'
         /\ signal r' = signal r.
Proof.
  intros td sd now. eexists. split; [apply generate_recommendation|].
  cbn [signal technicalAnalysisSignal marketSentimentSignal].
  rewrite finalSignal_technical. repeat split.
  intros sd' now'. eexists. split; [apply generate_recommendation|].
  cbn [signal]. now rewrite finalSignal_technical.
Qed.

Lemma trendDirection_cases trend :
  (Ref.trendDirection trend = "SHORT"
   /\ (trend = "bearish" \/ trend = "strongly bearish"))
  \/ (Ref.trendDirection trend = "LONG"
      /\ ~ (trend = "bearish" \/ trend = "strongly bearish")).
Proof.
  unfold Ref.trendDirection. cbn [existsb].
  string_cases; cbn; try (left; split; [reflexivity | now auto]);
    right; (split; [reflexivity | intros [?|?]; congruence]).
Qed.

Lemma technicalSignal_refines trend momentum :
  technicalSignal_of trend momentum
  = Ref.momentumOverride momentum (Ref.trendDirection trend).
Proof.
  unfold technicalSignal_of, Ref.momentumOverride, Ref.trendDirection.
  cbn [existsb]. string_cases; try reflexivity; try congruence.
Qed.

Lemma momentumOverride_short momentum d :
  d = "LONG" \/ d = "SHORT" ->
  (Ref.momentumOverride momentum d = "SHORT"
   <-> (d = "SHORT" /\ momentum <> "oversold")
       \/ (d = "LONG" /\ momentum = "overbought")).
Proof.
  unfold Ref.momentumOverride.
  intros [->| ->]; cbn; string_cases; cbn; split; intros H;
    try discriminate; try reflexivity;
    try (destruct H as [[H1 H2]|[H1 H2]]; congruence);
    try (left; split; congruence); try (right; split; congruence).
Qed.

(** C2. Technical direction: the technical signal of every recommendation is
    the direction of the trend label (LONG for bullish and strongly bullish,
    SHORT for bearish and strongly bearish, LONG for anything else, neutral
    included) put through the momentum override (overbought turns LONG into
    SHORT, oversold turns SHORT into LONG). *)
Theorem C2_technical_direction :
  forall td sd now,
  let trend := Technical.trend (Technical.technicalIndicators td) in
  let momentum := Technical.rsiSignal (Technical.technicalIndicators td) in
  exists r,
    recommendation (generateTradingRecommendation td sd now) = Some r
    /\ technicalAnalysisSignal r
       = Ref.momentumOverride momentum (Ref.trendDirection trend)
    /\ (Ref.trendDirection trend = "SHORT"
        <-> trend = "bearish" \/ trend = "strongly bearish")
    /\ (Ref.trendDirection trend = "LONG"
        <-> ~ (trend = "bearish" \/ trend = "strongly bearish"))
    /\ (technicalAnalysisSignal r = "SHORT"
        <-> (Ref.trendDirection trend = "SHORT" /\ momentum <> "oversold")
            \/ (Ref.trendDirection trend = "LONG" /\ momentum = "overbought")).
Proof.
  intros td sd now trend momentum.
  eexists. split; [apply generate_recommendation|].
  cbn [technicalAnalysisSignal]. fold trend momentum.
  rewrite technicalSignal_refines.
  split; [reflexivity|].
  pose proof (momentumOverride_short momentum (Ref.trendDirection trend)) as Hov.
  destruct (trendDirection_cases trend) as [[Hd Ht]|[Hd Ht]].
  - split; [tauto|]. split; [|apply Hov; auto].
    rewrite Hd. split; [discriminate | tauto].
  - split; [|split; [tauto | apply Hov; auto]].
    rewrite Hd. split; [discriminate | tauto].
Qed.

Lemma confidenceLevel_refines t s trend label :
  confidenceLevel_of t s trend label = Ref.confidence t s trend label.
Proof.
  unfold confidenceLevel_of, Ref.confidence.
  destruct (t =? s)%string,
    (Js.includes trend "strongly" || Js.includes label "extremely");
    reflexivity.
Qed.

(** C3. Confidence: the confidence of every recommendation is low exactly
    when its technical and sentiment signals differ, high exactly when they
    agree and the trend text includes "strongly" or the sentiment text
    includes "extremely", and medium exactly in the remaining case. *)
Theorem C3_confidence_level :
  forall td sd now,
  let trend := Technical.trend (Technical.technicalIndicators td) in
  let label := Sentiment.interpretation (Sentiment.marketSentimentData sd) in
  let qualified := Js.includes trend "strongly" || Js.includes label "extremely" in
  exists r,
    recommendation (generateTradingRecommendation td sd now) = Some r
    /\ confidenceLevel r
       = Ref.confidence (technicalAnalysisSignal r) (marketSentimentSignal r)
           trend label
    /\ (confidenceLevel r = "low"
        <-> technicalAnalysisSignal r <> marketSentimentSignal r)
    /\ (confidenceLevel r = "high"
        <-> technicalAnalysisSignal r = marketSentimentSignal r
            /\ qualified = true)
    /\ (confidenceLevel r = "medium"
        <-> technicalAnalysisSignal r = marketSentimentSignal r
            /\ qualified = false).
Proof.
  intros td sd now trend label qualified.
  eexists. split; [apply generate_recommendation|].
  cbn [confidenceLevel technicalAnalysisSignal marketSentimentSignal].
  fold trend label. rewrite confidenceLevel_refines.
  split; [reflexivity|]. unfold Ref.confidence. fold qualified.
  destruct (String.eqb_spec
              (technicalSignal_of trend
                 (Technical.rsiSignal (Technical.technicalIndicators td)))
              (sentimentSignal_of label)) as [He|Hne];
    destruct qualified; cbn;
    repeat split; intros; try discriminate; try congruence;
    try tauto;
    match goal with H : _ /\ _ |- _ => destruct H; congruence end.
Qed.

(** C4. Sentiment direction: on each of the five interpretations the
    normaliser produces, the sentiment signal is LONG when the text contains
    "bullish" and SHORT when it contains "bearish", turned round exactly on the
    extremely bullish and the extremely bearish interpretation, and LONG when
    the text contains neither word; the recommendation reports that signal. *)
Theorem C4_sentiment_direction :
  (forall fearGreedDescription,
     let label := MarketSentiment.marketSentiment_of fearGreedDescription in
     sentimentSignal_of label =
       if Js.includes label "bullish" then
         if (label =? Ref.extremelyBullish)%string then "SHORT" else "LONG"
       else if Js.includes label "bearish" then
         if (label =? Ref.extremelyBearish)%string then "LONG" else "SHORT"
       else "LONG")
  /\ sentimentSignal_of "extremely bullish (potentially overbought)" = "SHORT"
  /\ sentimentSignal_of "bullish" = "LONG"
  /\ sentimentSignal_of "neutral" = "LONG"
  /\ sentimentSignal_of "bearish" = "SHORT"
  /\ sentimentSignal_of "extremely bearish (potentially oversold)" = "LONG"
  /\ (forall td sd now,
      exists r,
        recommendation (generateTradingRecommendation td sd now) = Some r
        /\ marketSentimentSignal r
           = sentimentSignal_of
               (Sentiment.interpretation (Sentiment.marketSentimentData sd))).
Proof.
  split.
  - intros d label.
    apply (sentimentSignal_labels label), marketSentiment_of_range.
  - repeat split.
    intros td sd now. eexists. split; [apply generate_recommendation|].
    reflexivity.
Qed.

End Fusion.

(** ** Lists and sums *)

Section Lists.

Lemma lastN_skipn {A : Type} (n : nat) (l : list A) :
  Ref.lastN n l = skipn (List.length l - n) l.
Proof.
  unfold Ref.lastN. now rewrite firstn_rev, rev_involutive.
Qed.

Lemma lastN_length {A : Type} (n : nat) (l : list A) :
  (n <= List.length l)%nat -> List.length (Ref.lastN n l) = n.
Proof.
  intros Hn. rewrite lastN_skipn, length_skipn. lia.
Qed.

Lemma lastN_all {A : Type} (l : list A) : Ref.lastN (List.length l) l = l.
Proof.
  rewrite lastN_skipn, Nat.sub_diag. reflexivity.
Qed.

Lemma lastN_map {A B : Type} (f : A -> B) (n : nat) (l : list A) :
  Ref.lastN n (map f l) = map f (Ref.lastN n l).
Proof.
  rewrite !lastN_skipn, length_map. apply skipn_map.
Qed.


(** [slice(length - period)] keeps the last [period] elements. *)
Lemma slice_from_end {A : Type} (l : list A) (P : Z) :
  (0 <= P <= Js.length l)%Z ->
  Js.slice l (Js.length l - P) = Ref.lastN (Z.to_nat P) l.
Proof.
  unfold Js.slice, Js.length. intros HP. rewrite lastN_skipn.
  destruct (Z.ltb_spec (Z.of_nat (List.length l) - P) 0); [lia|].
  f_equal. lia.
Qed.

(** [slice(-period)] keeps the last [period] elements. *)
Lemma slice_negative {A : Type} (l : list A) (P : Z) :
  (0 < P <= Js.length l)%Z ->
  Js.slice l (- P) = Ref.lastN (Z.to_nat P) l.
Proof.
  unfold Js.slice, Js.length. intros HP. rewrite lastN_skipn.
  destruct (Z.ltb_spec (- P) 0); [|lia].
  f_equal. lia.
Qed.

Lemma fold_left_Qplus (l : list Q) (a : Q) :
  fold_left Qplus l a == a + Ref.total l.
Proof.
  revert a; induction l as [|x l IH]; intros a; simpl.
  - ring.
  - rewrite IH. ring.
Qed.

Lemma sum_total (l : list Q) : Js.sum l == Ref.total l.
Proof. unfold Js.sum. rewrite fold_left_Qplus. ring. Qed.

Lemma total_nonneg (l : list Q) :
  (forall x, In x l -> 0 <= x) -> 0 <= Ref.total l.
Proof.
  induction l as [|x l IH]; intros H; simpl.
  - apply Qle_refl.
  - assert (0 <= x) by (apply H; now left).
    assert (0 <= Ref.total l) by (apply IH; intros y Hy; apply H; now right).
    lra.
Qed.

Lemma total_map_ext (f g : Q -> Q) (l : list Q) :
  (forall x, f x == g x) -> Ref.total (map f l) == Ref.total (map g l).
Proof.
  intros Hfg. induction l as [|x l IH]; simpl; [reflexivity|].
  now rewrite IH, Hfg.
Qed.

End Lists.

(** ** Simple moving average *)

Section SMA.

Lemma calculateSMA_short prices P :
  (Js.length prices < P)%Z -> calculateSMA prices P = None.
Proof.
  intros H. unfold calculateSMA.
  destruct (Z.ltb_spec (Js.length prices) P); [reflexivity | lia].
Qed.

Lemma calculateSMA_enough prices P :
  (0 < P <= Js.length prices)%Z ->
  exists v,
    calculateSMA prices P = Some v
    /\ v == Ref.mean (Ref.lastN (Z.to_nat P) prices).
Proof.
  intros H. unfold calculateSMA.
  destruct (Z.ltb_spec (Js.length prices) P); [lia|].
  eexists. split; [reflexivity|].
  rewrite slice_from_end by lia. unfold Ref.mean.
  rewrite lastN_length by (unfold Js.length in H; lia).
  rewrite Z2Nat.id by lia. now rewrite sum_total.
Qed.

(** C5. Simple moving average: for a period [P >= 1], [calculateSMA] returns
    null on a series of fewer than [P] prices, and otherwise the arithmetic
    mean of the last [P] prices (so never an average over fewer than [P]
    prices); on a series of exactly [P] prices that is the mean of the whole
    series. *)
Theorem C5_calculateSMA_contract :
  forall (prices : list Q) (P : Z),
  (0 < P)%Z ->
  ((Js.length prices < P)%Z -> calculateSMA prices P = None)
  /\ ((P <= Js.length prices)%Z ->
      exists v,
        calculateSMA prices P = Some v
        /\ List.length (Ref.lastN (Z.to_nat P) prices) = Z.to_nat P
        /\ v == Ref.mean (Ref.lastN (Z.to_nat P) prices))
  /\ (Js.length prices = P ->
      exists v, calculateSMA prices P = Some v /\ v == Ref.mean prices).
Proof.
  intros prices P HP. split; [apply calculateSMA_short|]. split.
  - intros Hlen. destruct (calculateSMA_enough prices P) as [v [Hv Hm]]; [lia|].
    exists v. repeat split; auto.
    apply lastN_length. unfold Js.length in Hlen. lia.
  - intros Hlen. destruct (calculateSMA_enough prices P) as [v [Hv Hm]]; [lia|].
    exists v. split; [exact Hv|].
    rewrite Hm. subst P. unfold Js.length. rewrite Nat2Z.id, lastN_all.
    reflexivity.
Qed.

Lemma C5_calculateSMA_contract_witness :
  calculateSMA [10; 20] 3 = None
  /\ (exists v,
        calculateSMA [10; 20; 30; 60] 3 = Some v
        /\ v == Ref.mean [20; 30; 60])
  /\ (exists v,
        calculateSMA [10; 20; 30] 3 = Some v
        /\ v == Ref.mean [10; 20; 30]).
Proof.
  split; [|split].
  - apply (C5_calculateSMA_contract [10; 20] 3); reflexivity.
  - destruct (C5_calculateSMA_contract [10; 20; 30; 60] 3) as [_ [H _]];
      [reflexivity|].
    destruct H as [v [Hv [_ Hm]]]; [discriminate|].
    exists v. split; [exact Hv | exact Hm].
  - apply (C5_calculateSMA_contract [10; 20; 30] 3); reflexivity.
Defined.

End SMA.

(** ** Exponential moving average *)

Section EMA.

Lemma ema_prefix (k : Q) (l l' : list Q) (i : nat) :
  (i < List.length l)%nat -> Ref.ema k (l ++ l')%list i = Ref.ema k l i.
Proof.
  induction i as [|i IH]; intros Hi.
  - simpl. now rewrite app_nth1.
  - cbn [Ref.ema]. rewrite app_nth1 by exact Hi. rewrite IH by lia. reflexivity.
Qed.

(** The loop of [calculateEMA] computes the recurrence at the last index. *)
Lemma ema_loop (k first : Q) (rest : list Q) :
  fold_left (ema_step k) rest first
  = Ref.ema k (first :: rest) (List.length rest).
Proof.
  induction rest as [|x rest IH] using rev_ind.
  - reflexivity.
  - rewrite fold_left_app, length_app, Nat.add_comm. cbn [fold_left List.length plus].
    rewrite IH. cbn [Ref.ema]. unfold ema_step.
    change (first :: rest ++ [x])%list with ((first :: rest) ++ [x])%list.
    rewrite ema_prefix by (simpl; lia).
    rewrite app_nth2 by (simpl; lia).
    replace (S (List.length rest) - List.length (first :: rest))%nat with O
      by (simpl; lia).
    reflexivity.
Qed.

Lemma calculateEMA_short prices P :
  (Js.length prices < P)%Z -> calculateEMA prices P = None.
Proof.
  intros H. unfold calculateEMA.
  destruct (Z.ltb_spec (Js.length prices) P); [reflexivity | lia].
Qed.

Lemma calculateEMA_enough first rest P :
  (P <= Js.length (first :: rest))%Z ->
  calculateEMA (first :: rest) P
  = Some (fold_left (ema_step (Ref.smoothing P)) rest first).
Proof.
  intros H. unfold calculateEMA.
  destruct (Z.ltb_spec (Js.length (first :: rest)) P); [lia | reflexivity].
Qed.

(** C9. Exponential moving average: for a period [P >= 1], [calculateEMA]
    returns null on a series of fewer than [P] prices; otherwise it returns
    the value at the last index of the recurrence
    [ema[0] = price[0]], [ema[i] = price[i] * k + ema[i-1] * (1 - k)] with
    [k = 2 / (P + 1)], which starts at the first price and runs over the whole
    series: a change of the first price of a series longer than [P] changes
    the result. *)
Theorem C9_calculateEMA_contract :
  (forall (prices : list Q) (P : Z),
     (0 < P)%Z ->
     ((Js.length prices < P)%Z -> calculateEMA prices P = None)
     /\ ((P <= Js.length prices)%Z ->
         calculateEMA prices P
         = Some (Ref.ema (2 / inject_Z (P + 1)) prices
                   (List.length prices - 1))))
  /\ (exists v w,
        calculateEMA [100; 1; 1] 2 = Some v
        /\ calculateEMA [1; 1; 1] 2 = Some w
        /\ ~ v == w).
Proof.
  split.
  - intros prices P HP. split; [apply calculateEMA_short|].
    intros H. destruct prices as [|first rest];
      [unfold Js.length in H; simpl in H; lia|].
    rewrite calculateEMA_enough by exact H.
    rewrite ema_loop. cbn [List.length Nat.sub]. now rewrite Nat.sub_0_r.
  - eexists. eexists. split; [reflexivity|]. split; [reflexivity|].
    vm_compute. discriminate.
Qed.

Lemma C9_calculateEMA_contract_witness :
  calculateEMA [1; 2] 3 = None
  /\ calculateEMA [1; 2; 3] 3
     = Some (Ref.ema (2 / inject_Z (3 + 1)) [1; 2; 3] 2).
Proof.
  split.
  - apply (proj1 C9_calculateEMA_contract [1; 2] 3%Z); reflexivity.
  - apply (proj1 C9_calculateEMA_contract [1; 2; 3] 3%Z);
      [reflexivity | discriminate].
Defined.

End EMA.

(** ** Momentum-convergence oscillator *)

Section MACDSection.

Lemma zeros_then_length (n : nat) (x : Q) :
  Js.length (Js.zeros_then n x) = (Z.of_nat n + 1)%Z.
Proof.
  unfold Js.length, Js.zeros_then. rewrite length_app, repeat_length. simpl. lia.
Qed.

(** The signal line: the 9-period average of eight zeros and the main line is
    a fifth of the main line. *)
Lemma signal_seed (m : Q) :
  exists s,
    calculateEMA (Js.zeros_then 8 m) 9 = Some s
    /\ s == m * (1 # 5).
Proof.
  eexists. split.
  - unfold Js.zeros_then. cbn [repeat app]. apply calculateEMA_enough.
    discriminate.
  - cbn [fold_left]. unfold ema_step, Ref.smoothing.
    change (2 / inject_Z (9 + 1)) with (2 / 10). field.
Qed.

Lemma or0_some (s : Q) : Js.or0 (Some s) == s.
Proof.
  unfold Js.or0. destruct (Qeq_bool s 0) eqn:E; [|reflexivity].
  apply Qeq_bool_eq in E. now rewrite E.
Qed.

Lemma calculateMACD_short prices :
  (Js.length prices < 26)%Z -> calculateMACD prices = mkMACD None None None.
Proof.
  intros H. unfold calculateMACD.
  destruct (Z.ltb_spec (Js.length prices) 26); [reflexivity | lia].
Qed.

Lemma calculateMACD_enough prices :
  (26 <= Js.length prices)%Z ->
  exists e12 e26 s h,
    calculateEMA prices 12 = Some e12
    /\ calculateEMA prices 26 = Some e26
    /\ calculateEMA [0; 0; 0; 0; 0; 0; 0; 0; e12 - e26] 9 = Some s
    /\ calculateMACD prices = mkMACD (Some (e12 - e26)) (Some s) (Some h)
    /\ h == (e12 - e26) - s
    /\ s == (e12 - e26) * (1 # 5).
Proof.
  intros H. destruct prices as [|first rest]; [cbv in H; congruence|].
  unfold calculateMACD.
  destruct (Z.ltb_spec (Js.length (first :: rest)) 26); [lia|].
  rewrite (calculateEMA_enough first rest 12) by lia.
  rewrite (calculateEMA_enough first rest 26) by lia.
  cbv zeta.
  set (e12 := fold_left (ema_step (Ref.smoothing 12)) rest first).
  set (e26 := fold_left (ema_step (Ref.smoothing 26)) rest first).
  destruct (signal_seed (e12 - e26)) as [s [Hs Hfifth]].
  exists e12, e26, s, ((e12 - e26) - Js.or0 (Some s)).
  rewrite Hs. repeat split; auto.
  now rewrite or0_some.
Qed.

End MACDSection.

(** ** Momentum oscillator *)

Section RSI.

Lemma lt_spec (a b : Q) : Js.lt a b = true <-> a < b.
Proof.
  unfold Js.lt. rewrite negb_true_iff. split.
  - intros H. apply Qnot_le_lt. intros Hle.
    apply Qle_bool_iff in Hle. congruence.
  - intros H. destruct (Qle_bool b a) eqn:E; [|reflexivity].
    apply Qle_bool_iff in E. lra.
Qed.

Lemma lt_false (a b : Q) : Js.lt a b = false <-> b <= a.
Proof.
  unfold Js.lt. rewrite negb_false_iff. apply Qle_bool_iff.
Qed.

Lemma gt_spec (a b : Q) : Js.gt a b = true <-> b < a.
Proof. apply lt_spec. Qed.

Lemma gt_false (a b : Q) : Js.gt a b = false <-> a <= b.
Proof. apply lt_false. Qed.

Lemma gain_gainOf (c : Q) : gain c == Ref.gainOf c.
Proof.
  unfold gain, Ref.gainOf. destruct (Js.gt c 0) eqn:E.
  - apply gt_spec in E. rewrite Qabs_pos by lra. field.
  - apply gt_false in E. rewrite Qabs_neg by lra. field.
Qed.

Lemma loss_lossOf (c : Q) : loss c == Ref.lossOf c.
Proof.
  unfold loss, Ref.lossOf. destruct (Js.lt c 0) eqn:E.
  - apply lt_spec in E. rewrite Qabs_neg by lra. field.
  - apply lt_false in E. rewrite Qabs_pos by lra. field.
Qed.

Lemma gainOf_nonneg (c : Q) : 0 <= Ref.gainOf c.
Proof.
  rewrite <- gain_gainOf. unfold gain. destruct (Js.gt c 0) eqn:E.
  - apply gt_spec in E. lra.
  - lra.
Qed.

Lemma lossOf_nonneg (c : Q) : 0 <= Ref.lossOf c.
Proof.
  rewrite <- loss_lossOf. unfold loss. destruct (Js.lt c 0).
  - apply Qabs_nonneg.
  - lra.
Qed.

(** The loop that fills [changes] computes the deltas by index. *)
Lemma changes_deltas (prices : list Q) : changes prices = Ref.deltas prices.
Proof.
  unfold Ref.deltas. induction prices as [|prev rest IH]; [reflexivity|].
  destruct rest as [|cur rest]; [reflexivity|].
  change (changes (prev :: cur :: rest))
    with ((cur - prev) :: changes (cur :: rest)).
  rewrite IH. cbn [List.length Nat.sub seq map nth].
  rewrite Nat.sub_0_r. f_equal.
  rewrite <- seq_shift, map_map. reflexivity.
Qed.

Lemma deltas_length (prices : list Q) :
  List.length (Ref.deltas prices) = (List.length prices - 1)%nat.
Proof. unfold Ref.deltas. now rewrite length_map, length_seq. Qed.

Lemma inject_Z_pos (P : Z) : (0 < P)%Z -> 0 < inject_Z P.
Proof. intros H. unfold Qlt. simpl. lia. Qed.

Lemma mean_nonneg (f : Q -> Q) (l : list Q) :
  (forall x, 0 <= f x) -> l <> [] -> 0 <= Ref.mean (map f l).
Proof.
  intros Hf Hl. unfold Ref.mean. apply Qle_shift_div_l.
  - apply inject_Z_pos. rewrite length_map. destruct l; [congruence | simpl; lia].
  - rewrite Qmult_0_l. apply total_nonneg. intros x Hx.
    apply in_map_iff in Hx. destruct Hx as [y [<- _]]. apply Hf.
Qed.

Lemma rsi_formula_bounds (g l : Q) :
  0 <= g -> 0 < l -> 0 <= 100 - 100 / (1 + g / l) /\ 100 - 100 / (1 + g / l) < 100.
Proof.
  intros Hg Hl.
  assert (Hr : 0 <= g / l) by (apply Qle_shift_div_l; [exact Hl | lra]).
  remember (g / l) as r eqn:Er. clear Er.
  assert (Hx : 0 < 1 + r) by lra.
  assert (Hhi : 100 / (1 + r) <= 100) by (apply Qle_shift_div_r; [exact Hx | lra]).
  assert (Hlo : 0 < 100 / (1 + r)) by (apply Qlt_shift_div_l; [exact Hx | lra]).
  lra.
Qed.

(** The averages [calculateRSI] forms are the means, over the last [P]
    deltas, of the gains and of the losses. *)
Lemma window_average (f g : Q -> Q) (prices : list Q) (P : Z) :
  (forall x, f x == g x) ->
  (0 < P < Js.length prices)%Z ->
  Js.sum (Js.slice (map f (changes prices)) (- P)) / inject_Z P
  == Ref.mean (map g (Ref.lastN (Z.to_nat P) (Ref.deltas prices))).
Proof.
  intros Hfg HP. unfold Js.length in HP.
  rewrite slice_negative
    by (unfold Js.length; rewrite length_map, changes_deltas, deltas_length; lia).
  rewrite sum_total, lastN_map, changes_deltas.
  unfold Ref.mean. rewrite length_map, lastN_length by (rewrite deltas_length; lia).
  rewrite Z2Nat.id by lia.
  now rewrite (total_map_ext f g).
Qed.

Lemma calculateRSI_short prices P :
  (Js.length prices <= P)%Z -> calculateRSI prices P = None.
Proof.
  intros H. unfold calculateRSI.
  destruct (Z.leb_spec (Js.length prices) P); [reflexivity | lia].
Qed.

Lemma calculateRSI_enough prices P :
  (0 < P < Js.length prices)%Z ->
  let window := Ref.lastN (Z.to_nat P) (Ref.deltas prices) in
  let avgGain := Ref.mean (map Ref.gainOf window) in
  let avgLoss := Ref.mean (map Ref.lossOf window) in
  exists v,
    calculateRSI prices P = Some v
    /\ 0 <= v <= 100
    /\ (avgLoss == 0 -> v = 100)
    /\ (~ avgLoss == 0 -> v == 100 - 100 / (1 + avgGain / avgLoss)).
Proof.
  intros HP window avgGain avgLoss.
  pose proof (window_average gain Ref.gainOf prices P gain_gainOf HP) as Hg.
  pose proof (window_average loss Ref.lossOf prices P loss_lossOf HP) as Hl.
  fold window in Hg, Hl. fold avgGain in Hg. fold avgLoss in Hl.
  assert (Hw : window <> []).
  { intros E. apply (f_equal (@List.length Q)) in E. unfold window in E.
    rewrite lastN_length in E
      by (rewrite deltas_length; unfold Js.length in HP; lia).
    simpl in E. lia. }
  assert (Hg0 : 0 <= avgGain) by (apply mean_nonneg; [apply gainOf_nonneg | exact Hw]).
  assert (Hl0 : 0 <= avgLoss) by (apply mean_nonneg; [apply lossOf_nonneg | exact Hw]).
  unfold calculateRSI.
  destruct (Z.leb_spec (Js.length prices) P); [lia|]. cbv zeta.
  remember (Js.sum (Js.slice (map gain (changes prices)) (- P)) / inject_Z P)
    as g eqn:Eg.
  remember (Js.sum (Js.slice (map loss (changes prices)) (- P)) / inject_Z P)
    as l eqn:El.
  clear Eg El.
  destruct (Qeq_bool l 0) eqn:E.
  - exists 100. split; [reflexivity|]. split; [lra|]. split; [reflexivity|].
    intros Hne. exfalso. apply Hne. rewrite <- Hl. now apply Qeq_bool_eq.
  - exists (100 - 100 / (1 + g / l)). split; [reflexivity|].
    apply Qeq_bool_neq in E.
    destruct (rsi_formula_bounds g l) as [H1 H2]; [lra | lra |].
    split; [lra|]. split.
    + intros H0. exfalso. apply E. now rewrite Hl.
    + intros _. now rewrite Hg, Hl.
Qed.

(** C6. Momentum oscillator: for a period [P >= 1] (14 by default),
    [calculateRSI] returns null on a series of [P] prices or fewer; on a longer
    series it returns a number between 0 and 100, which is the number 100
    itself when the average loss over the last [P] deltas is zero and
    [100 - 100 / (1 + avgGain / avgLoss)] otherwise. *)
Theorem C6_calculateRSI_contract :
  forall (prices : list Q) (P : Z),
  (0 < P)%Z ->
  let window := Ref.lastN (Z.to_nat P) (Ref.deltas prices) in
  let avgGain := Ref.mean (map Ref.gainOf window) in
  let avgLoss := Ref.mean (map Ref.lossOf window) in
  ((Js.length prices <= P)%Z -> calculateRSI prices P = None)
  /\ ((P < Js.length prices)%Z ->
      exists v,
        calculateRSI prices P = Some v
        /\ 0 <= v <= 100
        /\ (avgLoss == 0 -> v = 100)
        /\ (~ avgLoss == 0 -> v == 100 - 100 / (1 + avgGain / avgLoss))).
Proof.
  intros prices P HP window avgGain avgLoss. split.
  - apply calculateRSI_short.
  - intros Hlen. apply calculateRSI_enough. lia.
Qed.

Lemma C6_calculateRSI_contract_witness :
  calculateRSI [10; 10; 10; 10; 10; 10; 10] 7 = None
  /\ (exists v,
        calculateRSI [10; 10; 10; 10; 10; 10; 10; 10] 7 = Some v
        /\ 0 <= v <= 100 /\ v = 100)
  /\ calculateRSI series_rsi_30 rsi_default_period <> None.
Proof.
  split; [|split].
  - apply (C6_calculateRSI_contract [10; 10; 10; 10; 10; 10; 10] 7);
      [reflexivity | discriminate].
  - destruct (C6_calculateRSI_contract [10; 10; 10; 10; 10; 10; 10; 10] 7)
      as [_ H]; [reflexivity|].
    destruct H as [v [Hv [Hb [H100 _]]]]; [reflexivity|].
    exists v. split; [exact Hv|]. split; [exact Hb|].
    apply H100. vm_compute. reflexivity.
  - destruct (C6_calculateRSI_contract series_rsi_30 rsi_default_period)
      as [_ H]; [reflexivity|].
    destruct H as [v [Hv _]]; [reflexivity|].
    rewrite Hv. discriminate.
Defined.

End RSI.

(** ** Trend classifier *)

Section Classifier.

Import TechnicalAnalysis.

(** What [performTechnicalAnalysis] reports on a non-empty series. *)
Lemma perform_indicators symbol timeframe first rest now :
  let prices := first :: rest in
  exists ti,
    technicalIndicators (performTechnicalAnalysis symbol timeframe prices now)
    = Some ti
    /\ sma7 (sma ti) = calculateSMA prices 7
    /\ sma25 (sma ti) = calculateSMA prices 25
    /\ sma99 (sma ti) = calculateSMA prices (Z.min 99 (Js.length prices - 1))
    /\ rsi ti = calculateRSI prices rsi_default_period
    /\ rsiSignal ti = rsiSignal_of (rsi ti)
    /\ (intraday timeframe = true ->
        exists st,
          shortTerm ti = Some st
          /\ macdSignal st
             = macdSignal_of (calculateMACD prices) (List.last prices 0)).
Proof.
  intros prices. unfold performTechnicalAnalysis. fold prices. cbv zeta.
  cbn [technicalIndicators].
  destruct (intraday timeframe); eexists; (split; [reflexivity|]);
    cbn [sma sma7 sma25 sma99 rsi rsiSignal shortTerm];
    repeat split; try discriminate.
  intros _. unfold shortTerm_of. cbv zeta. eexists. split; reflexivity.
Qed.

Lemma rsiSignal_of_thresholds (v : Q) :
  (rsiSignal_of (Some v) = "oversold" <-> v < 30)
  /\ (rsiSignal_of (Some v) = "overbought" <-> 70 < v)
  /\ (rsiSignal_of (Some v) = "neutral" <-> 30 <= v <= 70).
Proof.
  unfold rsiSignal_of.
  destruct (Js.gt v 70) eqn:Egt; [apply gt_spec in Egt | apply gt_false in Egt];
    [|destruct (Js.lt v 30) eqn:Elt;
      [apply lt_spec in Elt | apply lt_false in Elt]];
    repeat split; intros; try discriminate; try reflexivity; try lra;
    match goal with H : _ /\ _ |- _ => destruct H; lra end.
Qed.

Lemma macdSignal_of_absent (currentPrice : Q) :
  macdSignal_of (mkMACD None None None) currentPrice = "neutral".
Proof. reflexivity. Qed.

Lemma calculateSMA_null prices P :
  calculateSMA prices P = None <-> (Js.length prices < P)%Z.
Proof.
  unfold calculateSMA.
  destruct (Z.ltb_spec (Js.length prices) P); split; intros;
    try reflexivity; try discriminate; lia.
Qed.

(** On binary64 floats too, the 14-period oscillator of the first series is
    exactly 30 and that of the second exactly 70, and both classify as
    neutral. *)
Example binary64_boundaries :
  Binary64.calculateRSI Binary64.series_rsi_30 14 = Some 30%float
  /\ Binary64.rsiSignal_of (Some 30%float) = "neutral"
  /\ Binary64.calculateRSI Binary64.series_rsi_70 14 = Some 70%float
  /\ Binary64.rsiSignal_of (Some 70%float) = "neutral".
Proof. repeat split; vm_compute; reflexivity. Qed.

(** C7 with inclusive thresholds fails: the 14-period oscillator of
    [series_rsi_30] is 30 and its momentum signal is not oversold; that of
    [series_rsi_70] is 70 and its momentum signal is not overbought. *)
Lemma C7_rsiSignal_boundary_counterexample :
  (exists ti v,
     technicalIndicators (performTechnicalAnalysis "BTC" "daily" series_rsi_30 "")
     = Some ti
     /\ rsi ti = Some v /\ v == 30 /\ v <= 30
     /\ rsiSignal ti = "neutral" /\ rsiSignal ti <> "oversold")
  /\ (exists ti v,
        technicalIndicators
          (performTechnicalAnalysis "BTC" "daily" series_rsi_70 "")
        = Some ti
        /\ rsi ti = Some v /\ v == 70 /\ 70 <= v
        /\ rsiSignal ti = "neutral" /\ rsiSignal ti <> "overbought").
Proof.
  split; eexists; eexists; (split; [reflexivity|]); (split; [reflexivity|]);
    repeat split; vm_compute; discriminate.
Qed.

(** C7, amended. Momentum signal: for every oscillator value [v] that
    [performTechnicalAnalysis] computes, the momentum signal is oversold
    exactly when [v < 30], overbought exactly when [v > 70], and neutral
    exactly when [30 <= v <= 70]; the values 30 and 70 themselves are
    neutral. *)
Theorem C7_rsiSignal_thresholds :
  forall symbol timeframe prices now ti v,
  technicalIndicators (performTechnicalAnalysis symbol timeframe prices now)
  = Some ti ->
  rsi ti = Some v ->
  (rsiSignal ti = "oversold" <-> v < 30)
  /\ (rsiSignal ti = "overbought" <-> 70 < v)
  /\ (rsiSignal ti = "neutral" <-> 30 <= v <= 70).
Proof.
  intros symbol timeframe prices now ti v Hti Hv.
  destruct prices as [|first rest]; [discriminate Hti|].
  destruct (perform_indicators symbol timeframe first rest now)
    as [ti' [Hti' [_ [_ [_ [_ [Hsig _]]]]]]].
  rewrite Hti' in Hti. injection Hti as ->.
  rewrite Hsig, Hv. apply rsiSignal_of_thresholds.
Qed.

Lemma C7_rsiSignal_thresholds_witness :
  exists ti v,
    technicalIndicators (performTechnicalAnalysis "BTC" "daily" series_rsi_30 "")
    = Some ti
    /\ rsi ti = Some v
    /\ (rsiSignal ti = "oversold" <-> v < 30)
    /\ (rsiSignal ti = "overbought" <-> 70 < v)
    /\ (rsiSignal ti = "neutral" <-> 30 <= v <= 70).
Proof.
  eexists. eexists. split; [reflexivity|]. split; [reflexivity|].
  apply (C7_rsiSignal_thresholds "BTC" "daily" series_rsi_30 "");
    reflexivity.
Defined.

(** C8. Momentum-convergence oscillator: [calculateMACD] returns its three
    fields null exactly on a series of fewer than 26 prices.  On a longer
    series the main line is the 12-period minus the 26-period exponential
    average of the whole series, the signal is the 9-period exponential
    average of the nine-element series made of eight zeros and the main line
    (a fifth of the main line), and the histogram is worth the main line
    minus the signal.  With the three fields null the momentum-convergence
    classification is neutral, also as [performTechnicalAnalysis] reports it
    for an intraday timeframe. *)
Theorem C8_calculateMACD_contract :
  forall prices : list Q,
  let m := calculateMACD prices in
  ((macd m = None /\ signal m = None /\ histogram m = None)
   <-> (Js.length prices < 26)%Z)
  /\ ((26 <= Js.length prices)%Z ->
      exists e12 e26 s h,
        calculateEMA prices 12 = Some e12
        /\ calculateEMA prices 26 = Some e26
        /\ macd m = Some (e12 - e26)
        /\ calculateEMA [0; 0; 0; 0; 0; 0; 0; 0; e12 - e26] 9 = Some s
        /\ signal m = Some s
        /\ s == (e12 - e26) * (1 # 5)
        /\ histogram m = Some h
        /\ h == (e12 - e26) - s)
  /\ ((Js.length prices < 26)%Z ->
      (forall currentPrice, macdSignal_of m currentPrice = "neutral")
      /\ forall symbol timeframe now,
         prices <> [] ->
         intraday timeframe = true ->
         exists ti st,
           technicalIndicators
             (performTechnicalAnalysis symbol timeframe prices now) = Some ti
           /\ shortTerm ti = Some st
           /\ macdSignal st = "neutral").
Proof.
  intros prices m. split; [|split].
  - split.
    + intros [Hm _]. destruct (Z.lt_ge_cases (Js.length prices) 26) as [H|H];
        [exact H|].
      destruct (calculateMACD_enough prices H)
        as [e12 [e26 [s [h [_ [_ [_ [Hc _]]]]]]]].
      unfold m in Hm. rewrite Hc in Hm. discriminate Hm.
    + intros H. unfold m. rewrite (calculateMACD_short prices H).
      repeat split.
  - intros H.
    destruct (calculateMACD_enough prices H)
      as [e12 [e26 [s [h [H12 [H26 [Hs [Hc [Hh Hfifth]]]]]]]]].
    exists e12, e26, s, h. unfold m. rewrite Hc. cbn [macd signal histogram].
    repeat split; assumption.
  - intros H. unfold m. rewrite (calculateMACD_short prices H). split.
    + intros currentPrice. apply macdSignal_of_absent.
    + intros symbol timeframe now Hne Hintra.
      destruct prices as [|first rest]; [congruence|].
      destruct (perform_indicators symbol timeframe first rest now)
        as [ti [Hti [_ [_ [_ [_ [_ Hst]]]]]]].
      destruct (Hst Hintra) as [st [Hst1 Hst2]].
      exists ti, st. repeat split; try assumption.
      rewrite Hst2, (calculateMACD_short (first :: rest) H).
      apply macdSignal_of_absent.
Qed.

Lemma C8_calculateMACD_contract_witness :
  (exists e12 e26 s h,
     calculateEMA climb26 12 = Some e12
     /\ calculateEMA climb26 26 = Some e26
     /\ macd (calculateMACD climb26) = Some (e12 - e26)
     /\ calculateEMA [0; 0; 0; 0; 0; 0; 0; 0; e12 - e26] 9 = Some s
     /\ signal (calculateMACD climb26) = Some s
     /\ s == (e12 - e26) * (1 # 5)
     /\ histogram (calculateMACD climb26) = Some h
     /\ h == (e12 - e26) - s)
  /\ (exists ti st,
        technicalIndicators (performTechnicalAnalysis "BTC" "1m" climb3 "")
        = Some ti
        /\ shortTerm ti = Some st
        /\ macdSignal st = "neutral").
Proof.
  split.
  - apply (proj1 (proj2 (C8_calculateMACD_contract climb26))).
    vm_compute. discriminate.
  - apply (proj2 (proj2 (C8_calculateMACD_contract climb3))).
    + reflexivity.
    + discriminate.
    + reflexivity.
Defined.

(** C10. Long average of the position classifier: [performTechnicalAnalysis]
    computes [sma99] with the period [min(99, length - 1)]; on every series of
    two prices or more it is a number, the mean of the last
    [min(99, length - 1)] prices, and never null, while [sma7] is null exactly
    below 7 prices and [sma25] exactly below 25. *)
Theorem C10_sma99_period :
  forall symbol timeframe (prices : list Q) now,
  (2 <= Js.length prices)%Z ->
  let period := Z.min 99 (Js.length prices - 1) in
  exists ti v,
    technicalIndicators (performTechnicalAnalysis symbol timeframe prices now)
    = Some ti
    /\ sma99 (sma ti) = calculateSMA prices period
    /\ sma99 (sma ti) = Some v
    /\ v == Ref.mean (Ref.lastN (Z.to_nat period) prices)
    /\ (sma7 (sma ti) = None <-> (Js.length prices < 7)%Z)
    /\ (sma25 (sma ti) = None <-> (Js.length prices < 25)%Z).
Proof.
  intros symbol timeframe prices now Hlen period.
  destruct prices as [|first rest]; [cbv in Hlen; congruence|].
  destruct (perform_indicators symbol timeframe first rest now)
    as [ti [Hti [H7 [H25 [H99 _]]]]].
  destruct (calculateSMA_enough (first :: rest) period) as [v [Hv Hm]];
    [unfold period; lia|].
  exists ti, v. split; [exact Hti|]. split; [exact H99|].
  split; [now rewrite H99|]. split; [exact Hm|].
  rewrite H7, H25. split; apply calculateSMA_null.
Qed.

Lemma C10_sma99_period_witness :
  calculateSMA climb3 99 = None
  /\ exists ti v,
       technicalIndicators (performTechnicalAnalysis "BTC" "daily" climb3 "")
       = Some ti
       /\ sma99 (sma ti) = calculateSMA climb3 2
       /\ sma99 (sma ti) = Some v
       /\ v == Ref.mean [2; 3]
       /\ (sma7 (sma ti) = None <-> (Js.length climb3 < 7)%Z)
       /\ (sma25 (sma ti) = None <-> (Js.length climb3 < 25)%Z).
Proof.
  split; [reflexivity|].
  apply (C10_sma99_period "BTC" "daily" climb3 ""). discriminate.
Defined.

End Classifier.

(** ** Scenarios *)

Section Scenarios.

Import TradingRecommendation.

(** Eight identical prices: the 7-period average is 10, and the oscillator,
    with no loss in its window, is 100, which classifies as overbought. *)
Example flat_series :
  (exists v, calculateSMA flat8 7 = Some v /\ v == 10)
  /\ calculateRSI flat8 7 = Some 100
  /\ TechnicalAnalysis.rsiSignal_of (calculateRSI flat8 7) = "overbought".
Proof.
  split; [eexists; split; [reflexivity | vm_compute; reflexivity]|].
  split; reflexivity.
Qed.

(** A strongly bullish but overbought trend against an extremely bullish
    sentiment: both signals turn to SHORT, they agree, confidence is high, and
    the timeframe stays medium-term. *)
Example overbought_against_extreme_greed :
  recommendation
    (generateTradingRecommendation
       (technicalPayload "strongly bullish" "overbought")
       (sentimentPayload "extremely bullish (potentially overbought)") "now")
  = Some (mkRecommendation "SHORT" "high" "medium-term" "SHORT" "SHORT" "now").
Proof. reflexivity. Qed.

(** A neutral trend with an overbought momentum signal is SHORT; a sentiment
    text that says extremely bullish without the word overbought stays LONG. *)
Example neutral_overbought :
  technicalSignal_of "neutral" "overbought" = "SHORT"
  /\ sentimentSignal_of "extremely bullish" = "LONG".
Proof. split; reflexivity. Qed.

End Scenarios.

(** ** Decision fusion: range, horizon and the sentiment index *)

Section FusionMore.

Import TradingRecommendation.

Ltac eqb_cases :=
  repeat match goal with
    | |- context [(?a =? ?b)%string] =>
        is_var a; destruct (String.eqb_spec a b); subst; cbn
    end.

(** X1. Horizon of a recommendation: it is long-term exactly for a strongly
    bullish trend that is not overbought, short-term exactly for a strongly
    bearish trend that is not oversold, and medium-term otherwise; the
    sentiment payload has no part in it. *)
Theorem recommendedTimeframe_of_inputs :
  forall td sd now,
  let trend := Technical.trend (Technical.technicalIndicators td) in
  let momentum := Technical.rsiSignal (Technical.technicalIndicators td) in
  exists r,
    recommendation (generateTradingRecommendation td sd now) = Some r
    /\ (recommendedTimeframe r = "long-term"
        <-> trend = "strongly bullish" /\ momentum <> "overbought")
    /\ (recommendedTimeframe r = "short-term"
        <-> trend = "strongly bearish" /\ momentum <> "oversold")
    /\ (recommendedTimeframe r = "medium-term"
        <-> ~ (trend = "strongly bullish" /\ momentum <> "overbought")
            /\ ~ (trend = "strongly bearish" /\ momentum <> "oversold")).
Proof.
  intros td sd now trend momentum.
  eexists. split; [apply generate_recommendation|].
  cbn [recommendedTimeframe]. fold trend momentum.
  rewrite finalSignal_technical.
  unfold recommendedTimeframe_of, technicalSignal_of.
  generalize trend momentum. clear. intros trend momentum.
  eqb_cases; (split; [|split]); split; intros;
    try discriminate; try reflexivity;
    intuition (try congruence; try discriminate).
Qed.

(** X2. Range of a recommendation: the final, the technical and the sentiment
    signal are each LONG or SHORT (never neutral or empty), the confidence is
    low, medium or high, and the horizon is one of the three terms. *)
Theorem recommendation_range :
  forall td sd now,
  exists r,
    recommendation (generateTradingRecommendation td sd now) = Some r
    /\ In (signal r) ["LONG"; "SHORT"]
    /\ In (technicalAnalysisSignal r) ["LONG"; "SHORT"]
    /\ In (marketSentimentSignal r) ["LONG"; "SHORT"]
    /\ In (confidenceLevel r) ["low"; "medium"; "high"]
    /\ In (recommendedTimeframe r) ["short-term"; "medium-term"; "long-term"].
Proof.
  intros td sd now.
  eexists. split; [apply generate_recommendation|].
  cbn [signal technicalAnalysisSignal marketSentimentSignal confidenceLevel
       recommendedTimeframe].
  rewrite finalSignal_technical.
  set (t := technicalSignal_of _ _). set (s := sentimentSignal_of _).
  assert (Ht : In t ["LONG"; "SHORT"])
    by (destruct (technicalSignal_direction
                    (Technical.trend (Technical.technicalIndicators td))
                    (Technical.rsiSignal (Technical.technicalIndicators td)))
          as [H|H]; fold t in H; rewrite H; simpl; auto).
  assert (Hs : In s ["LONG"; "SHORT"])
    by (destruct (sentimentSignal_direction
                    (Sentiment.interpretation (Sentiment.marketSentimentData sd)))
          as [H|H]; fold s in H; rewrite H; simpl; auto).
  repeat split; try assumption.
  - unfold confidenceLevel_of.
    destruct ((t =? s)%string); destruct (_ || _); simpl; auto.
  - unfold recommendedTimeframe_of.
    destruct (_ && _); [simpl; auto|]. destruct (_ && _); simpl; auto.
Qed.

End FusionMore.

Section SentimentMore.

Import MarketSentiment.

Ltac zcmp_cases :=
  repeat match goal with
    | |- context [(?a <=? ?b)%Z] =>
        destruct (Z.leb_spec a b); cbn; try (exfalso; lia)
    | |- context [(?a <? ?b)%Z] =>
        destruct (Z.ltb_spec a b); cbn; try (exfalso; lia)
    end.

Lemma analyze_first symbol e rest :
  marketSentimentData (analyzeMarketSentiment symbol (e :: rest))
  = Some (mkMarketSentimentData
            (mkFearGreedIndex (Api.value e)
               (fearGreedDescription_of (Api.value e))
               (Api.value_classification e))
            (marketSentiment_of (fearGreedDescription_of (Api.value e)))
            (Api.timestamp e) (Api.time_until_update e)).
Proof. reflexivity. Qed.

(** X3. Sentiment bands: without an entry [analyzeMarketSentiment] reports an
    error and no sentiment; otherwise it reads the first entry only, and the
    interpretation is extremely bearish on [0, 25], bearish on (25, 45],
    bullish on (55, 75], extremely bullish on (75, 100], and neutral on
    (45, 55], on every index outside [0, 100] and on an index that is not a
    number. *)
Theorem analyzeMarketSentiment_bands :
  forall symbol,
  (status (analyzeMarketSentiment symbol []) = "error"
   /\ marketSentimentData (analyzeMarketSentiment symbol []) = None)
  /\ forall e rest,
     exists d,
       marketSentimentData (analyzeMarketSentiment symbol (e :: rest)) = Some d
       /\ status (analyzeMarketSentiment symbol (e :: rest)) = "success"
       /\ analyzeMarketSentiment symbol (e :: rest)
          = analyzeMarketSentiment symbol [e]
       /\ match Api.value e with
          | None => interpretation d = "neutral"
          | Some i =>
              (interpretation d = "extremely bearish (potentially oversold)"
               <-> (0 <= i <= 25)%Z)
              /\ (interpretation d = "bearish" <-> (25 < i <= 45)%Z)
              /\ (interpretation d = "bullish" <-> (55 < i <= 75)%Z)
              /\ (interpretation d = "extremely bullish (potentially overbought)"
                  <-> (75 < i <= 100)%Z)
              /\ (interpretation d = "neutral"
                  <-> (45 < i <= 55)%Z \/ (i < 0)%Z \/ (100 < i)%Z)
          end.
Proof.
  intros symbol. split; [split; reflexivity|].
  intros e rest. eexists. split; [apply analyze_first|].
  split; [reflexivity|]. split; [reflexivity|].
  cbn [interpretation]. destruct (Api.value e) as [i|]; [|reflexivity].
  unfold fearGreedDescription_of.
  zcmp_cases; repeat split; intros; try discriminate; try reflexivity; try lia.
Qed.

(** X4. From the index to the sentiment signal: for an index [i] the signal that
    decision fusion derives from the interpretation is SHORT exactly on
    (25, 45] and on (75, 100], so LONG under extreme fear and SHORT under
    extreme greed; and the interpretation carries the word "extremely" exactly
    on [0, 25] and on (75, 100]. *)
Theorem sentimentSignal_of_index :
  forall symbol (i : Z) c t u rest,
  exists d,
    marketSentimentData
      (analyzeMarketSentiment symbol (Api.mkEntry (Some i) c t u :: rest))
    = Some d
    /\ (TradingRecommendation.sentimentSignal_of (interpretation d) = "SHORT"
        <-> (25 < i <= 45)%Z \/ (75 < i <= 100)%Z)
    /\ (TradingRecommendation.sentimentSignal_of (interpretation d) = "LONG"
        <-> ~ ((25 < i <= 45)%Z \/ (75 < i <= 100)%Z))
    /\ (Js.includes (interpretation d) "extremely" = true
        <-> (0 <= i <= 25)%Z \/ (75 < i <= 100)%Z).
Proof.
  intros symbol i c t u rest. eexists. split; [apply analyze_first|].
  cbn [interpretation Api.value]. unfold fearGreedDescription_of.
  zcmp_cases; repeat split; intros; try discriminate; try reflexivity; try lia;
    vm_compute in *; try discriminate; try lia.
Qed.

End SentimentMore.

(** ** Indicator calculator: bounds and windows *)

Section IndicatorsMore.

Lemma inject_Z_succ (n : nat) :
  inject_Z (Z.of_nat (S n)) == 1 + inject_Z (Z.of_nat n).
Proof.
  rewrite Nat2Z.inj_succ. unfold Z.succ. rewrite inject_Z_plus. ring.
Qed.

Lemma total_bounds (l : list Q) (lo hi : Q) :
  (forall x, In x l -> lo <= x <= hi) ->
  lo * inject_Z (Z.of_nat (List.length l)) <= Ref.total l
  /\ Ref.total l <= hi * inject_Z (Z.of_nat (List.length l)).
Proof.
  induction l as [|x l IH]; intros H.
  - change (inject_Z (Z.of_nat (List.length (@nil Q)))) with 0.
    cbn [Ref.total]. split; lra.
  - cbn [Ref.total List.length]. rewrite inject_Z_succ.
    destruct (H x) as [Hlo Hhi]; [now left|].
    destruct IH as [IHlo IHhi]; [intros y Hy; apply H; now right|].
    split; lra.
Qed.

Lemma mean_bounds (l : list Q) (lo hi : Q) :
  l <> [] ->
  (forall x, In x l -> lo <= x <= hi) ->
  lo <= Ref.mean l <= hi.
Proof.
  intros Hne H. destruct (total_bounds l lo hi H) as [Hlo Hhi].
  assert (Hn : 0 < inject_Z (Z.of_nat (List.length l)))
    by (apply inject_Z_pos; destruct l; [congruence | simpl; lia]).
  unfold Ref.mean. split.
  - apply Qle_shift_div_l; assumption.
  - apply Qle_shift_div_r; assumption.
Qed.

Lemma lastN_app_exact {A : Type} (older recent : list A) :
  Ref.lastN (List.length recent) (older ++ recent) = recent.
Proof.
  rewrite lastN_skipn, length_app.
  replace (List.length older + List.length recent - List.length recent)%nat
    with (List.length older + 0)%nat by lia.
  rewrite skipn_app, Nat.add_0_r, skipn_all.
  replace (List.length older - List.length older)%nat with O by lia.
  reflexivity.
Qed.



(** X6. Simple moving average, window: the average over a period [P >= 1] reads
    the last [P] prices only; whatever history comes before them, the result
    is the same. *)
Theorem calculateSMA_window :
  forall (older recent : list Q) (P : Z),
  (0 < P)%Z ->
  Js.length recent = P ->
  calculateSMA (older ++ recent) P = calculateSMA recent P.
Proof.
  intros older recent P HP Hlen. unfold calculateSMA.
  assert (Hall : (Js.length (older ++ recent) = Js.length older + P)%Z)
    by (unfold Js.length in *; rewrite length_app; lia).
  destruct (Z.ltb_spec (Js.length (older ++ recent)) P);
    [unfold Js.length in *; lia|].
  destruct (Z.ltb_spec (Js.length recent) P); [lia|].
  rewrite !slice_from_end by (unfold Js.length in *; lia).
  replace (Z.to_nat P) with (List.length recent)
    by (unfold Js.length in Hlen; lia).
  now rewrite lastN_app_exact, lastN_all.
Qed.

Lemma calculateSMA_window_witness :
  calculateSMA ([7; 1000; 3] ++ [10; 20; 30]) 3 = calculateSMA [10; 20; 30] 3.
Proof.
  apply (calculateSMA_window [7; 1000; 3] [10; 20; 30] 3); reflexivity.
Defined.





Lemma changes_skipn (n : nat) (prices : list Q) :
  changes (skipn n prices) = skipn n (changes prices).
Proof.
  revert prices. induction n as [|n IH]; intros prices; [reflexivity|].
  destruct prices as [|a [|b rest]].
  - reflexivity.
  - cbn [skipn changes]. now destruct n.
  - change (changes (a :: b :: rest)) with ((b - a) :: changes (b :: rest)).
    cbn [skipn]. change (b :: rest) with (skipn 0 (b :: rest)) at 1.
    apply (IH (b :: rest)).
Qed.

Lemma changes_length (prices : list Q) :
  List.length (changes prices) = (List.length prices - 1)%nat.
Proof. rewrite changes_deltas. apply deltas_length. Qed.

Lemma changes_window (n : nat) (prices : list Q) :
  (n < List.length prices)%nat ->
  Ref.lastN n (changes prices) = changes (Ref.lastN (S n) prices).
Proof.
  intros Hn. rewrite !lastN_skipn, changes_length, changes_skipn.
  f_equal. lia.
Qed.

(** X8. Momentum oscillator, window: the oscillator over a period [P >= 1] reads
    the last [P + 1] prices only; whatever history comes before them, the
    result is the same. *)
Theorem calculateRSI_window :
  forall (older recent : list Q) (P : Z),
  (0 < P)%Z ->
  Js.length recent = (P + 1)%Z ->
  calculateRSI (older ++ recent) P = calculateRSI recent P.
Proof.
  intros older recent P HP Hlen. unfold Js.length in Hlen.
  assert (Hw : forall f : Q -> Q,
             Js.slice (map f (changes (older ++ recent))) (- P)
             = Js.slice (map f (changes recent)) (- P)).
  { intros f.
    rewrite !slice_negative
      by (unfold Js.length; rewrite length_map, changes_length;
          try rewrite length_app; lia).
    rewrite !lastN_map. f_equal.
    rewrite !changes_window by (try rewrite length_app; lia).
    f_equal. replace (S (Z.to_nat P)) with (List.length recent) by lia.
    now rewrite lastN_app_exact, lastN_all. }
  unfold calculateRSI.
  destruct (Z.leb_spec (Js.length (older ++ recent)) P);
    [unfold Js.length in *; rewrite length_app in *; lia|].
  destruct (Z.leb_spec (Js.length recent) P); [unfold Js.length in *; lia|].
  cbv zeta. now rewrite !Hw.
Qed.

Lemma calculateRSI_window_witness :
  calculateRSI ([500; 1; 70] ++ [10; 12; 11; 15]) 3
  = calculateRSI [10; 12; 11; 15] 3.
Proof.
  apply (calculateRSI_window [500; 1; 70] [10; 12; 11; 15] 3); reflexivity.
Defined.

End IndicatorsMore.

(** ** Momentum oscillator and momentum convergence: extremes *)

Section OscillatorsMore.

Import TechnicalAnalysis.

Lemma mean_zero (f : Q -> Q) (l : list Q) :
  l <> [] -> (forall x, In x l -> f x == 0) -> Ref.mean (map f l) == 0.
Proof.
  intros Hne H. apply Qle_antisym.
  - apply (mean_bounds (map f l) 0 0).
    + destruct l; [congruence | discriminate].
    + intros y Hy. apply in_map_iff in Hy. destruct Hy as [x [<- Hx]].
      rewrite (H x Hx). split; lra.
  - apply (mean_bounds (map f l) 0 0).
    + destruct l; [congruence | discriminate].
    + intros y Hy. apply in_map_iff in Hy. destruct Hy as [x [<- Hx]].
      rewrite (H x Hx). split; lra.
Qed.

Lemma total_positive (l : list Q) (x : Q) :
  (forall y, In y l -> 0 <= y) -> In x l -> 0 < x -> 0 < Ref.total l.
Proof.
  induction l as [|a l IH]; intros Hall Hin Hx; [destruct Hin|].
  cbn [Ref.total].
  assert (Ha : 0 <= a) by (apply Hall; now left).
  assert (Ht : 0 <= Ref.total l)
    by (apply total_nonneg; intros y Hy; apply Hall; now right).
  destruct Hin as [->|Hin]; [lra|].
  assert (0 < Ref.total l)
    by (apply IH; auto; intros y Hy; apply Hall; now right).
  lra.
Qed.

Lemma lossOf_rise (d : Q) : 0 <= d -> Ref.lossOf d == 0.
Proof. intros H. unfold Ref.lossOf. rewrite Qabs_pos by exact H. field. Qed.

Lemma gainOf_fall (d : Q) : d <= 0 -> Ref.gainOf d == 0.
Proof. intros H. unfold Ref.gainOf. rewrite Qabs_neg by exact H. field. Qed.

Lemma lossOf_fall (d : Q) : d < 0 -> 0 < Ref.lossOf d.
Proof.
  intros H. unfold Ref.lossOf. rewrite Qabs_neg by lra.
  apply Qlt_shift_div_l; lra.
Qed.

Lemma window_nonempty (prices : list Q) (P : Z) :
  (0 < P < Js.length prices)%Z ->
  Ref.lastN (Z.to_nat P) (Ref.deltas prices) <> [].
Proof.
  intros HP E. apply (f_equal (@List.length Q)) in E.
  rewrite lastN_length in E
    by (rewrite deltas_length; unfold Js.length in HP; lia).
  simpl in E. lia.
Qed.

Lemma calculateRSI_no_loss (prices : list Q) (P : Z) :
  (0 < P < Js.length prices)%Z ->
  (forall d, In d (Ref.lastN (Z.to_nat P) (Ref.deltas prices)) -> 0 <= d) ->
  calculateRSI prices P = Some 100.
Proof.
  intros HP Hrise.
  pose proof (window_nonempty prices P HP) as Hne.
  destruct (calculateRSI_enough prices P HP) as [v [Hv [_ [H100 _]]]].
  rewrite Hv. f_equal. apply H100.
  apply mean_zero; [exact Hne|]. intros d Hd. apply lossOf_rise, Hrise, Hd.
Qed.

Lemma calculateRSI_no_gain (prices : list Q) (P : Z) :
  (0 < P < Js.length prices)%Z ->
  (forall d, In d (Ref.lastN (Z.to_nat P) (Ref.deltas prices)) -> d <= 0) ->
  (exists d, In d (Ref.lastN (Z.to_nat P) (Ref.deltas prices)) /\ d < 0) ->
  exists v, calculateRSI prices P = Some v /\ v == 0.
Proof.
  intros HP Hfall [d [Hd Hneg]].
  pose proof (window_nonempty prices P HP) as Hne.
  destruct (calculateRSI_enough prices P HP) as [v [Hv [_ [_ Hform]]]].
  remember (Ref.lastN (Z.to_nat P) (Ref.deltas prices)) as window eqn:Ew.
  exists v. split; [exact Hv|].
  assert (Hg : Ref.mean (map Ref.gainOf window) == 0)
    by (apply mean_zero; [exact Hne|]; intros x Hx;
        apply gainOf_fall, Hfall, Hx).
  assert (Hl : 0 < Ref.mean (map Ref.lossOf window)).
  { unfold Ref.mean. apply Qlt_shift_div_l.
    - apply inject_Z_pos. rewrite length_map.
      destruct window; [congruence | simpl; lia].
    - rewrite Qmult_0_l.
      apply (total_positive _ (Ref.lossOf d)).
      + intros y Hy. apply in_map_iff in Hy. destruct Hy as [x [<- _]].
        apply lossOf_nonneg.
      + apply in_map. exact Hd.
      + apply lossOf_fall. exact Hneg. }
  rewrite Hform by lra. rewrite Hg. field. lra.
Qed.

(** X9. Momentum oscillator, extremes: over a period [P >= 1] and a series of
    more than [P] prices, the oscillator is 100 when none of the last [P]
    deltas is negative (a flat window included), and it is 0 when none of them
    is positive and one at least is negative. *)
Theorem calculateRSI_extremes :
  forall (prices : list Q) (P : Z),
  (0 < P < Js.length prices)%Z ->
  let window := Ref.lastN (Z.to_nat P) (Ref.deltas prices) in
  ((forall d, In d window -> 0 <= d) -> calculateRSI prices P = Some 100)
  /\ ((forall d, In d window -> d <= 0) ->
      (exists d, In d window /\ d < 0) ->
      exists v, calculateRSI prices P = Some v /\ v == 0).
Proof.
  intros prices P HP window. split.
  - intros Hrise. now apply calculateRSI_no_loss.
  - intros Hfall Hex. now apply calculateRSI_no_gain.
Qed.

Lemma calculateRSI_extremes_witness :
  calculateRSI [5; 1; 2; 2; 3] 3 = Some 100
  /\ exists v, calculateRSI [1; 9; 8; 8; 6] 3 = Some v /\ v == 0.
Proof.
  split.
  - apply (calculateRSI_extremes [5; 1; 2; 2; 3] 3).
    + split; reflexivity.
    + intros d [<-|[<-|[<-|[]]]]; discriminate.
  - apply (calculateRSI_extremes [1; 9; 8; 8; 6] 3).
    + split; reflexivity.
    + intros d [<-|[<-|[<-|[]]]]; discriminate.
    + exists (8 - 9). split; [now left | reflexivity].
Defined.

Ltac q_bools :=
  repeat match goal with
    | H : Js.gt _ _ = true |- _ => apply gt_spec in H
    | H : Js.gt _ _ = false |- _ => apply gt_false in H
    | H : Js.lt _ _ = true |- _ => apply lt_spec in H
    | H : Js.lt _ _ = false |- _ => apply lt_false in H
    end.

Lemma macdSignal_of_classes :
  forall (prices : list Q) (currentPrice : Q),
  let m := calculateMACD prices in
  In (macdSignal_of m currentPrice)
     ["strongly bullish"; "strongly bearish"; "neutral"]
  /\ ((26 <= Js.length prices)%Z ->
      exists mainLine h,
        macd m = Some mainLine
        /\ histogram m = Some h
        /\ h == mainLine * (4 # 5)
        /\ (macdSignal_of m currentPrice = "strongly bullish"
            <-> 0 < mainLine
                /\ (1 # 10000) * currentPrice < mainLine * (4 # 5))
        /\ (macdSignal_of m currentPrice = "strongly bearish"
            <-> mainLine < 0
                /\ (1 # 10000) * currentPrice < - (mainLine * (4 # 5)))).
Proof.
  intros prices currentPrice m.
  destruct (Z.lt_ge_cases (Js.length prices) 26) as [Hshort|Hlong].
  - unfold m. rewrite (calculateMACD_short prices Hshort).
    split; [simpl; auto | lia].
  - destruct (calculateMACD_enough prices Hlong)
      as [e12 [e26 [s [h [_ [_ [_ [Hc [Hh Hs]]]]]]]]].
    assert (Hh45 : h == (e12 - e26) * (4 # 5)) by (rewrite Hh, Hs; ring).
    unfold m. rewrite Hc. clear Hc m.
    remember (e12 - e26) as mainLine eqn:Em. clear Em e12 e26 Hh Hs.
    unfold macdSignal_of. cbn [histogram signal macd].
    assert (Habs : h < 0 -> Qabs h == - h) by (intros; apply Qabs_neg; lra).
    destruct (Js.gt h 0) eqn:E1;
      destruct (Js.gt h ((1 # 10000) * currentPrice)) eqn:E2;
      destruct (Js.gt mainLine 0) eqn:E3;
      destruct (Js.lt h 0) eqn:E4;
      destruct (Js.gt (Qabs h) ((1 # 10000) * currentPrice)) eqn:E5;
      destruct (Js.lt mainLine 0) eqn:E6;
      q_bools; cbn [andb];
      try (exfalso; lra);
      try (rewrite Habs in E5 by lra);
      (split; [simpl; auto|]; intros _; exists mainLine, h;
       split; [reflexivity|]; split; [reflexivity|]; split; [exact Hh45|];
       split; split; intros; try discriminate; try reflexivity;
       try (split; lra);
       match goal with H : _ /\ _ |- _ => destruct H; exfalso; lra end).
Qed.

(** X10. Momentum convergence, classification: the histogram is worth four fifths
    of the main line, so the two always have the same sign and the
    classification of what [calculateMACD] returns is strongly bullish,
    strongly bearish or neutral, never plainly bullish or bearish.  It is
    strongly bullish exactly when the main line is positive and four fifths
    of it exceed 0.01 percent of the current price, and strongly bearish in
    the mirror case. *)
Theorem macdSignal_of_calculateMACD :
  forall (prices : list Q) (currentPrice : Q),
  let m := calculateMACD prices in
  In (macdSignal_of m currentPrice)
     ["strongly bullish"; "strongly bearish"; "neutral"]
  /\ ((26 <= Js.length prices)%Z ->
      exists mainLine h,
        macd m = Some mainLine
        /\ histogram m = Some h
        /\ h == mainLine * (4 # 5)
        /\ (macdSignal_of m currentPrice = "strongly bullish"
            <-> 0 < mainLine
                /\ (1 # 10000) * currentPrice < mainLine * (4 # 5))
        /\ (macdSignal_of m currentPrice = "strongly bearish"
            <-> mainLine < 0
                /\ (1 # 10000) * currentPrice < - (mainLine * (4 # 5)))).
Proof.
  intros prices currentPrice m.
  destruct (macdSignal_of_classes prices currentPrice) as [Hrange Hlong].
  split; [exact Hrange|]. intros Hlen.
  destruct (Hlong Hlen) as [mainLine [h [Hm [Hh [H45 [Hbull Hbear]]]]]].
  exists mainLine, h. unfold m.
  split; [exact Hm|]. split; [exact Hh|]. split; [exact H45|].
  split; assumption.
Qed.

Lemma macdSignal_of_calculateMACD_witness :
  exists mainLine h,
    macd (calculateMACD climb26) = Some mainLine
    /\ histogram (calculateMACD climb26) = Some h
    /\ h == mainLine * (4 # 5)
    /\ (macdSignal_of (calculateMACD climb26) 26 = "strongly bullish"
        <-> 0 < mainLine /\ (1 # 10000) * 26 < mainLine * (4 # 5))
    /\ (macdSignal_of (calculateMACD climb26) 26 = "strongly bearish"
        <-> mainLine < 0 /\ (1 # 10000) * 26 < - (mainLine * (4 # 5))).
Proof.
  apply (proj2 (macdSignal_of_calculateMACD climb26 26)).
  vm_compute. discriminate.
Defined.

End OscillatorsMore.

(** ** Trend classifier: labels, missing data and the short horizon *)

Section ClassifierMore.

Import TechnicalAnalysis.

(** The whole report of [performTechnicalAnalysis] on a non-empty series. *)
Lemma perform_report symbol timeframe first rest now :
  let prices := first :: rest in
  let price := List.last prices 0 in
  let s7 := calculateSMA prices 7 in
  let s25 := calculateSMA prices 25 in
  let s99 := calculateSMA prices (Z.min 99 (Js.length prices - 1)) in
  let a7 := Js.gt price (Js.nullish0 s7) in
  let a25 := Js.gt price (Js.nullish0 s25) in
  let a99 := Js.gt price (Js.nullish0 s99) in
  exists ti,
    performTechnicalAnalysis symbol timeframe prices now
    = mkTechnicalAnalysisResponse "success" (Some symbol) (Some price)
        (Some ti) (Some now) None
    /\ sma ti = mkSMAData s7 s25 s99 a7 a25 a99
    /\ rsi ti = calculateRSI prices rsi_default_period
    /\ rsiSignal ti = rsiSignal_of (calculateRSI prices rsi_default_period)
    /\ trend ti = trend_of a7 a25 a99
    /\ shortTerm ti
       = (if intraday timeframe
          then Some (fst (shortTerm_of timeframe prices price)) else None)
    /\ recommendation ti
       = (if intraday timeframe
          then Some (snd (shortTerm_of timeframe prices price)) else None).
Proof.
  intros prices price s7 s25 s99 a7 a25 a99.
  unfold performTechnicalAnalysis. fold prices. cbv zeta. fold price.
  destruct (intraday timeframe); eexists; (split; [reflexivity|]);
    repeat split.
Qed.




(** X12. Missing averages: a null average counts as zero, so on a series of fewer
    than 25 prices whose last price is positive the trend is never bearish or
    strongly bearish, and on fewer than 7 prices it is bullish or strongly
    bullish, there is no momentum signal, and the technical signal decision
    fusion derives from the two labels is LONG. *)
Theorem trend_with_short_history :
  forall symbol timeframe first rest now,
  let prices := first :: rest in
  0 < List.last prices 0 ->
  (Js.length prices < 25)%Z ->
  exists ti,
    technicalIndicators (performTechnicalAnalysis symbol timeframe prices now)
    = Some ti
    /\ sma25 (sma ti) = None
    /\ aboveSMA25 (sma ti) = true
    /\ In (trend ti) ["strongly bullish"; "bullish"; "neutral"]
    /\ ((Js.length prices < 7)%Z ->
        In (trend ti) ["strongly bullish"; "bullish"]
        /\ rsi ti = None
        /\ rsiSignal ti = "neutral"
        /\ TradingRecommendation.technicalSignal_of (trend ti) (rsiSignal ti)
           = "LONG").
Proof.
  intros symbol timeframe first rest now prices Hpos Hlen.
  destruct (perform_report symbol timeframe first rest now)
    as [ti [Hr [Hsma [Hrsi [Hsig [Htrend _]]]]]].
  fold prices in Hr, Hsma, Hrsi, Hsig, Htrend.
  remember (Js.gt (List.last prices 0)
              (Js.nullish0
                 (calculateSMA prices (Z.min 99 (Js.length prices - 1)))))
    as a99 eqn:E99.
  clear E99.
  exists ti. rewrite Hr. cbn [technicalIndicators]. split; [reflexivity|].
  assert (H25 : calculateSMA prices 25 = None) by now apply calculateSMA_short.
  rewrite H25 in Hsma, Htrend. cbn [Js.nullish0] in Hsma, Htrend.
  assert (Ha : Js.gt (List.last prices 0) 0 = true) by now apply gt_spec.
  rewrite Ha in Hsma, Htrend.
  rewrite Hsma. cbn [sma25 aboveSMA25]. split; [reflexivity|].
  split; [reflexivity|]. split.
  - rewrite Htrend. destruct (Js.gt _ _), a99; simpl; auto.
  - intros H7.
    assert (Hs7 : calculateSMA prices 7 = None) by now apply calculateSMA_short.
    assert (Hnone : calculateRSI prices rsi_default_period = None)
      by (apply calculateRSI_short; unfold rsi_default_period; lia).
    rewrite Hs7 in Htrend. cbn [Js.nullish0] in Htrend. rewrite Ha in Htrend.
    rewrite Hrsi, Hsig, Hnone, Htrend.
    destruct a99; (split; [simpl; auto|]); repeat split.
Qed.

Lemma trend_with_short_history_witness :
  exists ti,
    technicalIndicators (performTechnicalAnalysis "BTC" "daily" climb3 "")
    = Some ti
    /\ sma25 (sma ti) = None
    /\ aboveSMA25 (sma ti) = true
    /\ In (trend ti) ["strongly bullish"; "bullish"; "neutral"]
    /\ ((Js.length climb3 < 7)%Z ->
        In (trend ti) ["strongly bullish"; "bullish"]
        /\ rsi ti = None
        /\ rsiSignal ti = "neutral"
        /\ TradingRecommendation.technicalSignal_of (trend ti) (rsiSignal ti)
           = "LONG").
Proof.
  apply (trend_with_short_history "BTC" "daily" 1 [2; 3] ""); reflexivity.
Defined.

(** X13. Empty series: [performTechnicalAnalysis] answers an empty list of candles
    with an error that carries the message and nothing else; any other list
    is a success whose current price is the last close of the list. *)
Theorem performTechnicalAnalysis_status :
  forall symbol timeframe (prices : list Q) now,
  let r := performTechnicalAnalysis symbol timeframe prices now in
  (status r = "error" <-> prices = [])
  /\ (status r = "success" <-> prices <> [])
  /\ (prices = [] ->
      technicalIndicators r = None /\ currentPrice r = None
      /\ TechnicalAnalysis.symbol r = None
      /\ message r = Some "No price data available")
  /\ (prices <> [] ->
      technicalIndicators r <> None
      /\ currentPrice r = Some (List.last prices 0)
      /\ message r = None).
Proof.
  intros symbol timeframe prices now r. unfold r.
  destruct prices as [|first rest].
  - cbn. repeat split; intros; try discriminate; try congruence.
  - destruct (perform_report symbol timeframe first rest now) as [ti [Hr _]].
    rewrite Hr. cbn [status technicalIndicators currentPrice message].
    repeat split; intros; try discriminate; try congruence.
Qed.

End ClassifierMore.

(** ** Trend classifier: the short horizon and monotone windows *)

Section ShortHorizon.

Import TechnicalAnalysis.

Ltac q_bools :=
  repeat match goal with
    | H : Js.gt _ _ = true |- _ => apply gt_spec in H
    | H : Js.gt _ _ = false |- _ => apply gt_false in H
    | H : Js.lt _ _ = true |- _ => apply lt_spec in H
    | H : Js.lt _ _ = false |- _ => apply lt_false in H
    end.

Lemma recommendation_of_cases timeframe a5 a10 e9 e21 macdS rsi7 :
  let tr := shortTermTrend_of a5 a10 e9 e21 in
  let rec := recommendation_of timeframe tr macdS rsi7 in
  In rec ["LONG"; "SHORT"; "neutral"]
  /\ (timeframe <> "1m" -> rec = "neutral")
  /\ (timeframe = "1m" ->
      (rec = "LONG"
       <-> In tr ["strongly bullish"; "bullish"]
           /\ (Js.includes macdS "bullish" = true
               \/ exists r, rsi7 = Some r /\ r < 30))
      /\ (rec = "SHORT"
          <-> In tr ["strongly bearish"; "bearish"]
              /\ (Js.includes macdS "bearish" = true
                  \/ exists r, rsi7 = Some r /\ 70 < r))).
Proof.
  intros tr rec. unfold rec, tr, recommendation_of. clear rec tr.
  destruct (String.eqb_spec timeframe "1m") as [->|Hne].
  - split; [|split; [congruence|intros _]].
    + destruct a5, a10, e9, e21; cbn;
        destruct (Js.includes macdS "bullish"), (Js.includes macdS "bearish");
        destruct rsi7 as [r|]; try destruct (Js.lt r 30);
        try destruct (Js.gt r 70); cbn; auto.
    + destruct a5, a10, e9, e21; cbn;
        destruct (Js.includes macdS "bullish") eqn:Eb,
          (Js.includes macdS "bearish") eqn:Es;
        (destruct rsi7 as [r|];
         [destruct (Js.lt r 30) eqn:E30; destruct (Js.gt r 70) eqn:E70|]);
        cbn; q_bools;
        split; split; intros H; try discriminate; try reflexivity;
        try (split; [simpl; auto | auto; fail]);
        try (split; [simpl; auto|]; right; eexists; split;
             [reflexivity | assumption]);
        try (destruct H as [[H|[H|[]]] _]; discriminate);
        try (destruct H as [_ [H|[x [Hx Hr]]]];
             [discriminate | try discriminate; injection Hx as <-;
                             exfalso; lra]).
  - split; [simpl; auto|]. split; [reflexivity | congruence].
Qed.

Lemma includes_macd_bullish (m : MACD) (price : Q) :
  In (macdSignal_of m price) ["strongly bullish"; "strongly bearish"; "neutral"] ->
  (Js.includes (macdSignal_of m price) "bullish" = true
   <-> macdSignal_of m price = "strongly bullish")
  /\ (Js.includes (macdSignal_of m price) "bearish" = true
      <-> macdSignal_of m price = "strongly bearish").
Proof.
  intros [H|[H|[H|[]]]]; rewrite <- H; split; split; intros;
    try reflexivity; discriminate.
Qed.

(** X14. Short-horizon recommendation: [performTechnicalAnalysis] reports
    short-term indicators and a recommendation for the four intraday
    timeframes only; the recommendation is LONG, SHORT or neutral, and neutral
    for every timeframe but "1m".  For "1m" it is LONG exactly when the
    short-term trend is bullish or strongly bullish and either the momentum
    convergence is strongly bullish or the 7-period oscillator is below 30,
    and SHORT in the mirror case; with fewer than 8 prices it is neutral. *)
Theorem shortTerm_recommendation :
  forall symbol timeframe first rest now,
  let prices := first :: rest in
  exists ti,
    technicalIndicators (performTechnicalAnalysis symbol timeframe prices now)
    = Some ti
    /\ (intraday timeframe = true
        <-> In timeframe ["1m"; "5m"; "15m"; "hourly"])
    /\ (intraday timeframe = false ->
        shortTerm ti = None /\ recommendation ti = None)
    /\ (intraday timeframe = true ->
        exists st rec,
          shortTerm ti = Some st
          /\ recommendation ti = Some rec
          /\ In rec ["LONG"; "SHORT"; "neutral"]
          /\ (timeframe <> "1m" -> rec = "neutral")
          /\ (timeframe = "1m" ->
              (rec = "LONG"
               <-> In (shortTermTrend st) ["strongly bullish"; "bullish"]
                   /\ (macdSignal st = "strongly bullish"
                       \/ exists r, calculateRSI prices 7 = Some r /\ r < 30))
              /\ (rec = "SHORT"
                  <-> In (shortTermTrend st) ["strongly bearish"; "bearish"]
                      /\ (macdSignal st = "strongly bearish"
                          \/ exists r,
                             calculateRSI prices 7 = Some r /\ 70 < r)))
          /\ ((Js.length prices < 8)%Z -> rec = "neutral")).
Proof.
  intros symbol timeframe first rest now prices.
  destruct (perform_report symbol timeframe first rest now)
    as [ti [Hr [_ [_ [_ [_ [Hst Hrec]]]]]]].
  fold prices in Hr, Hst, Hrec.
  exists ti. rewrite Hr. cbn [technicalIndicators]. split; [reflexivity|].
  split.
  { unfold intraday. rewrite existsb_exists. split.
    - intros [x [Hx Heq]]. apply String.eqb_eq in Heq. now subst.
    - intros H. exists timeframe. split; [exact H | apply String.eqb_refl]. }
  destruct (intraday timeframe).
  - split; [discriminate|]. intros _.
    rewrite Hst, Hrec. eexists. eexists.
    split; [reflexivity|]. split; [reflexivity|].
    unfold shortTerm_of. cbv zeta. cbn [fst snd shortTermTrend macdSignal].
    set (price := List.last prices 0).
    destruct (macdSignal_of_classes prices price) as [Hrange _].
    destruct (includes_macd_bullish (calculateMACD prices) price Hrange)
      as [Hbull Hbear].
    match goal with
    | |- context [recommendation_of timeframe (shortTermTrend_of ?a ?b ?c ?d)
                    ?m ?r] =>
        destruct (recommendation_of_cases timeframe a b c d m r)
          as [Hin [Hother H1m]]
    end.
    split; [exact Hin|]. split; [exact Hother|]. split.
    + intros Htf. destruct (H1m Htf) as [HL HS].
      rewrite Hbull in HL. rewrite Hbear in HS. split; assumption.
    + intros Hlen.
      destruct (String.eqb_spec timeframe "1m") as [Htf|Htf];
        [|now apply Hother].
      destruct (H1m Htf) as [HL HS].
      assert (Hm : calculateMACD prices = mkMACD None None None)
        by (apply calculateMACD_short; lia).
      assert (Hn : calculateRSI prices 7 = None)
        by (apply calculateRSI_short; lia).
      rewrite Hm, Hn in *.
      destruct Hin as [Hin|[Hin|[Hin|[]]]]; symmetry in Hin;
        [apply HL in Hin | apply HS in Hin | exact Hin];
        destruct Hin as [_ [Hin|[r [Hin _]]]]; discriminate.
  - split; [intros _; now rewrite Hst, Hrec | discriminate].
Qed.




Lemma technicalSignal_overbought trend :
  TradingRecommendation.technicalSignal_of trend "overbought" = "SHORT".
Proof.
  unfold TradingRecommendation.technicalSignal_of.
  destruct (trend =? "strongly bullish")%string, (trend =? "bullish")%string,
    (trend =? "strongly bearish")%string, (trend =? "bearish")%string;
    reflexivity.
Qed.

Lemma technicalSignal_oversold trend :
  TradingRecommendation.technicalSignal_of trend "oversold" = "LONG".
Proof.
  unfold TradingRecommendation.technicalSignal_of.
  destruct (trend =? "strongly bullish")%string, (trend =? "bullish")%string,
    (trend =? "strongly bearish")%string, (trend =? "bearish")%string;
    reflexivity.
Qed.



(** X16. Windows without a loss or without a gain: on a series of 15 prices or
    more, if none of the last 14 deltas is negative the momentum signal is
    overbought and the technical signal of decision fusion is SHORT whatever
    the trend; if none is positive and one is negative the momentum signal is
    oversold and the technical signal is LONG whatever the trend. *)
Theorem monotone_window_signal :
  forall symbol timeframe first rest now,
  let prices := first :: rest in
  let window := Ref.lastN 14 (Ref.deltas prices) in
  (14 < Js.length prices)%Z ->
  exists ti,
    technicalIndicators (performTechnicalAnalysis symbol timeframe prices now)
    = Some ti
    /\ ((forall d, In d window -> 0 <= d) ->
        rsiSignal ti = "overbought"
        /\ TradingRecommendation.technicalSignal_of (trend ti) (rsiSignal ti)
           = "SHORT")
    /\ ((forall d, In d window -> d <= 0) ->
        (exists d, In d window /\ d < 0) ->
        rsiSignal ti = "oversold"
        /\ TradingRecommendation.technicalSignal_of (trend ti) (rsiSignal ti)
           = "LONG").
Proof.
  intros symbol timeframe first rest now prices window Hlen.
  destruct (perform_report symbol timeframe first rest now)
    as [ti [Hr [_ [_ [Hsig _]]]]].
  fold prices in Hr, Hsig.
  exists ti. rewrite Hr. cbn [technicalIndicators]. split; [reflexivity|].
  assert (HP : (0 < rsi_default_period < Js.length prices)%Z)
    by (unfold rsi_default_period; lia).
  pose proof (calculateRSI_no_loss prices rsi_default_period HP) as Hrise.
  pose proof (calculateRSI_no_gain prices rsi_default_period HP) as Hfall.
  change (Z.to_nat rsi_default_period) with 14%nat in Hrise, Hfall.
  fold window in Hrise, Hfall. split.
  - intros H. rewrite Hsig, (Hrise H).
    split; [reflexivity | apply technicalSignal_overbought].
  - intros H Hex. destruct (Hfall H Hex) as [v [Hv H0]].
    rewrite Hsig, Hv.
    assert (Hs : rsiSignal_of (Some v) = "oversold")
      by (apply rsiSignal_of_thresholds; rewrite H0; reflexivity).
    rewrite Hs. split; [reflexivity | apply technicalSignal_oversold].
Qed.

End ShortHorizon.

Section ShortHorizonWitness.

Import TechnicalAnalysis.

Lemma monotone_window_signal_witness :
  (exists ti,
     technicalIndicators (performTechnicalAnalysis "BTC" "daily" rising15 "")
     = Some ti
     /\ rsiSignal ti = "overbought"
     /\ TradingRecommendation.technicalSignal_of (trend ti) (rsiSignal ti)
        = "SHORT")
  /\ (exists ti,
        technicalIndicators (performTechnicalAnalysis "BTC" "daily" falling15 "")
        = Some ti
        /\ rsiSignal ti = "oversold"
        /\ TradingRecommendation.technicalSignal_of (trend ti) (rsiSignal ti)
           = "LONG").
Proof.
  split.
  - destruct (monotone_window_signal "BTC" "daily" 1
                [2; 3; 4; 5; 6; 7; 8; 9; 10; 11; 12; 13; 14; 15] "")
      as [ti [Hti [Hrise _]]]; [reflexivity|].
    exists ti. split; [exact Hti|]. apply Hrise.
    intros d Hd. vm_compute in Hd.
    repeat (destruct Hd as [<-|Hd]; [discriminate|]). destruct Hd.
  - destruct (monotone_window_signal "BTC" "daily" 15
                [14; 13; 12; 11; 10; 9; 8; 7; 6; 5; 4; 3; 2; 1] "")
      as [ti [Hti [_ Hfall]]]; [reflexivity|].
    exists ti. split; [exact Hti|]. apply Hfall.
    + intros d Hd. vm_compute in Hd.
      repeat (destruct Hd as [<-|Hd]; [discriminate|]). destruct Hd.
    + exists (14 - 15). split; [vm_compute; auto | reflexivity].
Defined.

End ShortHorizonWitness.

(** ** Symbol formatting *)

Section Symbols.

Import BinanceSymbol.

Lemma strip_allUpperAlnum (s : string) : allUpperAlnum (stripNonAlnum s) = true.
Proof.
  induction s as [|c s IH]; [reflexivity|]. cbn [stripNonAlnum].
  destruct (isUpperAlnum c) eqn:E; [|exact IH].
  cbn [allUpperAlnum]. now rewrite E, IH.
Qed.

Lemma allUpperAlnum_app (a b : string) :
  allUpperAlnum (a ++ b) = allUpperAlnum a && allUpperAlnum b.
Proof.
  induction a as [|c a IH]; [reflexivity|].
  cbn [String.append allUpperAlnum]. rewrite IH.
  now rewrite andb_assoc.
Qed.

Lemma strip_fixed (s : string) : allUpperAlnum s = true -> stripNonAlnum s = s.
Proof.
  induction s as [|c s IH]; [reflexivity|]. cbn [allUpperAlnum stripNonAlnum].
  intros H. apply andb_true_iff in H. destruct H as [Hc Hs].
  now rewrite Hc, IH.
Qed.

Lemma upperAscii_fixed (c : ascii) : isUpperAlnum c = true -> upperAscii c = c.
Proof.
  destruct c as [[] [] [] [] [] [] [] []]; vm_compute; congruence.
Qed.

Lemma upperAscii_lowerAscii (c : ascii) : upperAscii (lowerAscii c) = upperAscii c.
Proof. destruct c as [[] [] [] [] [] [] [] []]; reflexivity. Qed.

Lemma upperAscii_idem (c : ascii) : upperAscii (upperAscii c) = upperAscii c.
Proof. destruct c as [[] [] [] [] [] [] [] []]; reflexivity. Qed.

Lemma toUpperCaseAscii_fixed (s : string) :
  allUpperAlnum s = true -> toUpperCaseAscii s = s.
Proof.
  unfold toUpperCaseAscii.
  induction s as [|c s IH]; [reflexivity|]. cbn [mapString allUpperAlnum].
  intros H. apply andb_true_iff in H. destruct H as [Hc Hs].
  now rewrite upperAscii_fixed, (IH Hs).
Qed.

Lemma toUpperCaseAscii_lower (s : string) :
  toUpperCaseAscii (toLowerCaseAscii s) = toUpperCaseAscii s.
Proof.
  unfold toUpperCaseAscii, toLowerCaseAscii.
  induction s as [|c s IH]; [reflexivity|]. cbn [mapString].
  now rewrite upperAscii_lowerAscii, IH.
Qed.

Lemma toUpperCaseAscii_idem (s : string) :
  toUpperCaseAscii (toUpperCaseAscii s) = toUpperCaseAscii s.
Proof.
  unfold toUpperCaseAscii.
  induction s as [|c s IH]; [reflexivity|]. cbn [mapString].
  now rewrite upperAscii_idem, IH.
Qed.

Lemma append_suffix_differs (body : string) :
  (body ++ "USDC")%string <> (body ++ "USDT")%string.
Proof.
  induction body as [|c body IH]; [discriminate|].
  cbn. intros H. injection H as H. exact (IH H).
Qed.

(** X18. Symbol alphabet: whatever the symbol that is asked for, and whatever
    upper-casing does to it, the symbol sent to the exchange is made of the
    characters A-Z and 0-9 only, and it is the same normalised body followed
    by USDC for the candles and by USDT for the price. *)
Theorem formatBinanceSymbol_alphabet :
  forall (toUpperCase : string -> string) (symbol : string),
  exists body,
    Klines.formatBinanceSymbol toUpperCase symbol = (body ++ "USDC")%string
    /\ Ticker.formatBinanceSymbol toUpperCase symbol = (body ++ "USDT")%string
    /\ allUpperAlnum body = true
    /\ allUpperAlnum (Klines.formatBinanceSymbol toUpperCase symbol) = true
    /\ allUpperAlnum (Ticker.formatBinanceSymbol toUpperCase symbol) = true.
Proof.
  intros toUpperCase symbol. exists (normalizedSymbol toUpperCase symbol).
  unfold Klines.formatBinanceSymbol, Ticker.formatBinanceSymbol.
  rewrite !allUpperAlnum_app. unfold normalizedSymbol.
  rewrite strip_allUpperAlnum. repeat split.
Qed.

(** X19. Symbol normalisation on ASCII text: the case of the letters of the symbol
    does not matter, normalising twice is normalising once, and a symbol
    already made of A-Z and 0-9 is left as it is. *)
Theorem normalizedSymbol_ascii :
  forall symbol : string,
  isAscii symbol = true ->
  normalizedSymbol toUpperCaseAscii (toLowerCaseAscii symbol)
  = normalizedSymbol toUpperCaseAscii symbol
  /\ normalizedSymbol toUpperCaseAscii (toUpperCaseAscii symbol)
     = normalizedSymbol toUpperCaseAscii symbol
  /\ normalizedSymbol toUpperCaseAscii
       (normalizedSymbol toUpperCaseAscii symbol)
     = normalizedSymbol toUpperCaseAscii symbol
  /\ (allUpperAlnum symbol = true ->
      normalizedSymbol toUpperCaseAscii symbol = symbol).
Proof.
  intros symbol _. unfold normalizedSymbol.
  rewrite toUpperCaseAscii_lower, toUpperCaseAscii_idem.
  repeat split.
  - rewrite (toUpperCaseAscii_fixed (stripNonAlnum _))
      by apply strip_allUpperAlnum.
    apply strip_fixed, strip_allUpperAlnum.
  - intros H. rewrite (toUpperCaseAscii_fixed symbol H). now apply strip_fixed.
Qed.

Lemma normalizedSymbol_ascii_witness :
  normalizedSymbol toUpperCaseAscii (toLowerCaseAscii "Btc-usd")
  = normalizedSymbol toUpperCaseAscii "Btc-usd"
  /\ normalizedSymbol toUpperCaseAscii "Btc-usd" = "BTCUSD"
  /\ normalizedSymbol toUpperCaseAscii "BTCUSD" = "BTCUSD".
Proof.
  split; [|split].
  - apply (normalizedSymbol_ascii "Btc-usd"). reflexivity.
  - reflexivity.
  - apply (normalizedSymbol_ascii "BTCUSD"); reflexivity.
Defined.

(** X20. Quote asset: for one and the same symbol the price tool and the analysis
    tool never ask the exchange for the same market; the first asks for the
    USDT pair and the second for the USDC pair. *)
Theorem formatBinanceSymbol_quote_differs :
  forall (toUpperCase : string -> string) (symbol : string),
  Klines.formatBinanceSymbol toUpperCase symbol
  <> Ticker.formatBinanceSymbol toUpperCase symbol.
Proof.
  intros toUpperCase symbol. apply append_suffix_differs.
Qed.

End Symbols.

(** ** Answer submission *)

Section Submission.

Import Game.

Lemma answerOf_cases (recommendation : option string) :
  (answerOf recommendation = Some "long" <-> recommendation = Some "LONG")
  /\ (answerOf recommendation = Some "short" <-> recommendation = Some "SHORT")
  /\ (answerOf recommendation = None
      <-> recommendation <> Some "LONG" /\ recommendation <> Some "SHORT").
Proof.
  destruct recommendation as [r|]; cbn.
  - destruct (String.eqb_spec r "LONG") as [->|HL];
      [|destruct (String.eqb_spec r "SHORT") as [->|HS]]; cbn;
      repeat split; intros; try discriminate; try congruence;
      match goal with H : _ /\ _ |- _ => destruct H; congruence end.
  - repeat split; intros; try discriminate; try congruence.
Qed.

(** X21. Answers: [processGame] submits at most one answer, it is the word long or
    the word short, and it is submitted exactly when the game was found and
    the agent's recommendation is the very string LONG, or SHORT; any other
    value, another case of the letters included, submits nothing. *)
Theorem processGame_answers :
  forall (gameFound : bool) (response : AgentResponse),
  In (processGame gameFound response)
     [[]; [InsertAnswer "long"]; [InsertAnswer "short"]]
  /\ (processGame gameFound response = [InsertAnswer "long"]
      <-> gameFound = true /\ response = Parsed (Some "LONG"))
  /\ (processGame gameFound response = [InsertAnswer "short"]
      <-> gameFound = true /\ response = Parsed (Some "SHORT"))
  /\ processGame gameFound (Parsed (Some "long")) = []
  /\ processGame gameFound (Parsed (Some "neutral")) = [].
Proof.
  intros gameFound response.
  assert (Hfix : processGame gameFound (Parsed (Some "long")) = []
                 /\ processGame gameFound (Parsed (Some "neutral")) = [])
    by (destruct gameFound; split; reflexivity).
  destruct gameFound; [|cbn; repeat split; intros; try discriminate;
                        try (simpl; auto);
                        match goal with H : _ /\ _ |- _ => destruct H end;
                        discriminate].
  destruct response as [|recommendation];
    [cbn; repeat split; intros; try discriminate; try (simpl; auto);
     match goal with H : _ /\ _ |- _ => destruct H end; discriminate|].
  destruct (answerOf_cases recommendation) as [HL [HS HN]].
  unfold processGame. cbn [negb].
  destruct (answerOf recommendation) as [answer|] eqn:E.
  - destruct recommendation as [r|]; [|discriminate E].
    cbn in E.
    destruct (String.eqb_spec r "LONG") as [->|HrL];
      [|destruct (String.eqb_spec r "SHORT") as [->|HrS]];
      cbn in E; try discriminate E; injection E as <-; cbn;
      repeat split; intros; try discriminate; try congruence;
      try (simpl; auto; fail); try apply Hfix;
      match goal with H : _ /\ _ |- _ => destruct H; congruence end.
  - destruct HN as [HN _]. destruct (HN eq_refl) as [H1 H2].
    repeat split; intros; try discriminate; try (simpl; auto; fail);
      try apply Hfix;
      match goal with H : _ /\ _ |- _ => destruct H; congruence end.
Qed.

(** X22. From fusion to submission: the signal of every recommendation passes the
    check of [processGame], LONG giving the answer long and SHORT the answer
    short; the neutral that the analysis tool may recommend does not. *)
Theorem recommendation_signal_submitted :
  forall td sd now,
  exists r,
    TradingRecommendation.recommendation
      (TradingRecommendation.generateTradingRecommendation td sd now) = Some r
    /\ ((TradingRecommendation.signal r = "LONG"
         /\ processGame true (Parsed (Some (TradingRecommendation.signal r)))
            = [InsertAnswer "long"])
        \/ (TradingRecommendation.signal r = "SHORT"
            /\ processGame true (Parsed (Some (TradingRecommendation.signal r)))
               = [InsertAnswer "short"]))
    /\ processGame true (Parsed (Some "neutral")) = [].
Proof.
  intros td sd now. eexists. split; [apply generate_recommendation|].
  cbn [TradingRecommendation.signal]. rewrite finalSignal_technical.
  split; [|reflexivity].
  destruct (technicalSignal_direction
              (TradingRecommendation.Technical.trend
                 (TradingRecommendation.Technical.technicalIndicators td))
              (TradingRecommendation.Technical.rsiSignal
                 (TradingRecommendation.Technical.technicalIndicators td)))
    as [H|H]; rewrite H; [left | right]; split; reflexivity.
Qed.

End Submission.

(** ** Reconnecting socket client *)

Section Socket.

Import WebSocketService.

Lemma scheduled_app (a b : list Effect) :
  scheduled (a ++ b) = (scheduled a + scheduled b)%nat.
Proof. unfold scheduled. now rewrite filter_app, length_app. Qed.

Lemma scheduled_clearPending (s : Service) : scheduled (clearPending s) = O.
Proof. unfold clearPending. now destruct (reconnectTimeout s). Qed.

Lemma attemptReconnect_spec (fresh : Timer) (s : Service) :
  attempts_ok s ->
  let s' := fst (attemptReconnect fresh s) in
  let effects := snd (attemptReconnect fresh s) in
  attempts_ok s'
  /\ socket s' = socket s
  /\ messageHandlers s' = messageHandlers s
  /\ Z.of_nat (scheduled effects)
     = (reconnectAttempts s' - reconnectAttempts s)%Z
  /\ ((reconnectAttempts s < MAX_RECONNECT_ATTEMPTS)%Z ->
      reconnectAttempts s' = (reconnectAttempts s + 1)%Z
      /\ reconnectTimeout s' = Some fresh
      /\ In (SetTimeout fresh RECONNECT_INTERVAL) effects)
  /\ (reconnectAttempts s = MAX_RECONNECT_ATTEMPTS -> s' = s /\ scheduled effects = O).
Proof.
  unfold attempts_ok, attemptReconnect, MAX_RECONNECT_ATTEMPTS. intros H.
  destruct (Z.leb_spec 5 (reconnectAttempts s)); cbn [fst snd].
  - rewrite scheduled_clearPending. repeat split; try lia.
  - cbn [reconnectAttempts socket messageHandlers reconnectTimeout].
    rewrite scheduled_app, scheduled_clearPending.
    repeat split; try lia; try (cbn; lia).
    apply in_or_app. right. now left.
Qed.

Lemma step_attempts (fresh : Timer) (e : Event) (s : Service) :
  attempts_ok s -> attempts_ok (fst (step fresh e s)).
Proof.
  intros H. pose proof H as H'. unfold attempts_ok, MAX_RECONNECT_ATTEMPTS in H'.
  destruct e as [throws|throws| |parsed| | |throws|h|h|]; cbn [step];
    try exact H;
    try (unfold attempts_ok, MAX_RECONNECT_ATTEMPTS; cbn; lia).
  - unfold connect. destruct throws; [|exact H].
    destruct (attemptReconnect fresh s) eqn:E. cbn [fst].
    pose proof (attemptReconnect_spec fresh s H) as [Hok _].
    now rewrite E in Hok.
  - unfold connect. destruct throws; [|exact H].
    destruct (attemptReconnect fresh s) eqn:E. cbn [fst].
    pose proof (attemptReconnect_spec fresh s H) as [Hok _].
    now rewrite E in Hok.
  - unfold onclose. apply attemptReconnect_spec. exact H.
Qed.

Lemma run_cons (fresh : Timer) (e : Event) (rest : list Event) (s : Service) :
  run fresh (e :: rest) s
  = (fst (run (S fresh) rest (fst (step fresh e s))),
     (snd (step fresh e s) ++ snd (run (S fresh) rest (fst (step fresh e s))))%list).
Proof.
  cbn [run]. destruct (step fresh e s) as [s1 effects1]. cbn [fst snd].
  now destruct (run (S fresh) rest s1).
Qed.

Lemma run_attempts (events : list Event) (fresh : Timer) (s : Service) :
  attempts_ok s -> attempts_ok (fst (run fresh events s)).
Proof.
  revert fresh s. induction events as [|e rest IH]; intros fresh s H.
  - exact H.
  - rewrite run_cons. cbn [fst]. apply IH, step_attempts, H.
Qed.

(** X23. Bounded retries: whatever happens to a service, in whatever order (method
    calls, socket callbacks, timers that fire, constructors that throw), its
    count of reconnection attempts stays between 0 and 5. *)
Theorem reconnectAttempts_bounded :
  forall (events : list Event) (fresh : Timer),
  (0 <= reconnectAttempts (fst (run fresh events initial))
   <= MAX_RECONNECT_ATTEMPTS)%Z.
Proof.
  intros events fresh. apply run_attempts.
  unfold attempts_ok, initial, MAX_RECONNECT_ATTEMPTS. cbn. lia.
Qed.

Lemma step_scheduled (fresh : Timer) (e : Event) (s : Service) :
  attempts_ok s ->
  isOpened e = false ->
  Z.of_nat (scheduled (snd (step fresh e s)))
  = (reconnectAttempts (fst (step fresh e s)) - reconnectAttempts s)%Z.
Proof.
  intros H Hopen.
  assert (Hconnect : forall throws,
            Z.of_nat (scheduled (snd (connect throws fresh s)))
            = (reconnectAttempts (fst (connect throws fresh s))
               - reconnectAttempts s)%Z).
  { intros throws. unfold connect. destruct throws; [|cbn; lia].
    pose proof (attemptReconnect_spec fresh s H) as [_ [_ [_ [Hn _]]]].
    destruct (attemptReconnect fresh s) as [s' effects]. cbn [fst snd] in *.
    rewrite scheduled_app. cbn. lia. }
  destruct e as [throws|throws| |parsed| | |throws|h|h|]; cbn [step fst snd];
    try discriminate; try apply Hconnect; try (cbn; lia).
  - unfold onmessage. cbn [fst snd].
    assert (Hz : scheduled (if parsed then map Call (messageHandlers s) else [])
                 = O).
    { destruct parsed; [|reflexivity]. unfold scheduled.
      induction (messageHandlers s) as [|h l IH]; [reflexivity | exact IH]. }
    rewrite Hz. lia.
  - unfold onclose.
    pose proof (attemptReconnect_spec fresh (settle CLOSED s)) as Hs.
    destruct Hs as [_ [_ [_ [Hn _]]]]; [exact H|]. exact Hn.
  - unfold send. destruct (negb _); [cbn; lia|]. destruct throws; cbn; lia.
  - unfold disconnect. cbn [fst snd reconnectAttempts].
    rewrite scheduled_app, scheduled_clearPending.
    destruct (socket s); cbn; lia.
Qed.

Lemma run_scheduled (events : list Event) (fresh : Timer) (s : Service) :
  attempts_ok s ->
  forallb (fun e => negb (isOpened e)) events = true ->
  Z.of_nat (scheduled (snd (run fresh events s)))
  = (reconnectAttempts (fst (run fresh events s)) - reconnectAttempts s)%Z.
Proof.
  revert fresh s. induction events as [|e rest IH]; intros fresh s H Hno.
  - cbn. lia.
  - cbn [forallb] in Hno. apply andb_true_iff in Hno. destruct Hno as [He Hrest].
    apply negb_true_iff in He.
    rewrite run_cons. cbn [fst snd]. rewrite scheduled_app, Nat2Z.inj_add.
    rewrite (step_scheduled fresh e s H He).
    rewrite (IH (S fresh) _ (step_attempts fresh e s H) Hrest). lia.
Qed.

(** X24. Retry budget: as long as the socket does not open, a service schedules no
    more reconnections than the attempts it has left out of 5, whatever else
    happens to it; once the socket opens the count is back at 0. *)
Theorem reconnect_budget :
  forall (events : list Event) (fresh : Timer) (s : Service),
  (0 <= reconnectAttempts s <= MAX_RECONNECT_ATTEMPTS)%Z ->
  forallb (fun e => negb (isOpened e)) events = true ->
  (Z.of_nat (scheduled (snd (run fresh events s)))
   <= MAX_RECONNECT_ATTEMPTS - reconnectAttempts s)%Z
  /\ reconnectAttempts (fst (onopen (fst (run fresh events s)))) = 0%Z.
Proof.
  intros events fresh s H Hno. split; [|reflexivity].
  rewrite (run_scheduled events fresh s H Hno).
  pose proof (run_attempts events fresh s H) as Hok.
  unfold attempts_ok in Hok. lia.
Qed.

Lemma reconnect_budget_witness :
  (Z.of_nat (scheduled (snd (run 0%nat sevenCloses initial)))
   <= MAX_RECONNECT_ATTEMPTS - reconnectAttempts initial)%Z
  /\ reconnectAttempts (fst (onopen (fst (run 0%nat sevenCloses initial)))) = 0%Z.
Proof.
  apply (reconnect_budget sevenCloses 0%nat initial).
  - split; discriminate.
  - reflexivity.
Defined.

Lemma isOpen_spec (s : option ReadyState) : isOpen s = true <-> s = Some OPEN.
Proof.
  destruct s as [[]|]; cbn; split; intros; try discriminate; reflexivity.
Qed.

Lemma step_not_open (fresh : Timer) (e : Event) (s : Service) :
  isOpened e = false ->
  isOpen (socket s) = false ->
  isOpen (socket (fst (step fresh e s))) = false.
Proof.
  intros He Hs.
  destruct e as [throws|throws| |parsed| | |throws|h|h|]; cbn [step fst];
    try discriminate; try exact Hs; try reflexivity.
  - unfold connect. destruct throws; [|reflexivity].
    unfold attemptReconnect. destruct (_ <=? _)%Z; exact Hs.
  - unfold connect. destruct throws; [|reflexivity].
    unfold attemptReconnect. destruct (_ <=? _)%Z; exact Hs.
  - unfold onclose, attemptReconnect, settle.
    destruct (_ <=? _)%Z; cbn; now destruct (socket s).
Qed.

Lemma run_not_open (events : list Event) (fresh : Timer) (s : Service) :
  forallb (fun e => negb (isOpened e)) events = true ->
  isOpen (socket s) = false ->
  isOpen (socket (fst (run fresh events s))) = false.
Proof.
  revert fresh s. induction events as [|e rest IH]; intros fresh s Hno Hs.
  - exact Hs.
  - cbn [forallb] in Hno. apply andb_true_iff in Hno. destruct Hno as [He Hrest].
    apply negb_true_iff in He. rewrite run_cons. cbn [fst].
    apply IH; [exact Hrest|]. now apply step_not_open.
Qed.

(** X25. Sending: [send] transmits, and returns true, exactly when the socket of
    the service is open and the transmission does not throw; otherwise it
    returns false and transmits nothing.  So a service whose socket has never
    opened sends nothing, whatever else has happened to it, and neither does a
    service that has just been disconnected. *)
Theorem send_requires_open :
  forall (throws : bool) (s : Service),
  (fst (send throws s) = true <-> socket s = Some OPEN /\ throws = false)
  /\ (snd (send throws s) = [SocketSend] <-> fst (send throws s) = true)
  /\ (fst (send throws s) = false -> snd (send throws s) = [])
  /\ fst (send throws (fst (disconnect s))) = false
  /\ forall events fresh,
     forallb (fun e => negb (isOpened e)) events = true ->
     fst (send throws (fst (run fresh events initial))) = false.
Proof.
  intros throws s.
  assert (Hsend : forall s', isOpen (socket s') = false ->
                             fst (send throws s') = false)
    by (intros s' H; unfold send; now rewrite H).
  split; [|split; [|split; [|split]]].
  - unfold send. pose proof (isOpen_spec (socket s)) as Ho.
    destruct (isOpen (socket s)); cbn [negb]; destruct throws; cbn [fst];
      split; intros H; try discriminate; try reflexivity;
      try (split; [now apply Ho | reflexivity]);
      destruct H as [H1 H2]; try discriminate;
      apply Ho in H1; discriminate.
  - unfold send. destruct (isOpen (socket s)), throws; cbn;
      split; intros; try discriminate; reflexivity.
  - unfold send. destruct (isOpen (socket s)), throws; cbn;
      intros; try discriminate; reflexivity.
  - apply Hsend. reflexivity.
  - intros events fresh Hno. apply Hsend. now apply run_not_open.
Qed.



(** X27. Disconnecting does not end the retries: [disconnect] clears the pending
    timer and drops the socket, but the close callback of the socket is left
    in place, so when the close event of that socket comes, a service with
    attempts left counts one more attempt and schedules a reconnection. *)
Theorem close_after_disconnect :
  forall (fresh : Timer) (s : Service),
  (0 <= reconnectAttempts s < MAX_RECONNECT_ATTEMPTS)%Z ->
  let s1 := fst (disconnect s) in
  let s2 := fst (onclose fresh s1) in
  socket s1 = None
  /\ reconnectTimeout s1 = None
  /\ snd (onclose fresh s1) = [SetTimeout fresh RECONNECT_INTERVAL]
  /\ reconnectTimeout s2 = Some fresh
  /\ reconnectAttempts s2 = (reconnectAttempts s + 1)%Z
  /\ socket (fst (connect false (S fresh) s2)) = Some CONNECTING.
Proof.
  intros fresh s H s1 s2. unfold s2, s1, onclose, attemptReconnect, disconnect.
  cbn [fst settle socket reconnectAttempts reconnectTimeout messageHandlers].
  unfold MAX_RECONNECT_ATTEMPTS in *.
  destruct (Z.leb_spec 5 (reconnectAttempts s)); [lia|].
  cbn. repeat split.
Qed.

Lemma close_after_disconnect_witness :
  snd (onclose 1%nat
         (fst (disconnect (fst (onopen (fst (connect false 0%nat initial)))))))
  = [SetTimeout 1%nat RECONNECT_INTERVAL].
Proof.
  apply (close_after_disconnect 1%nat
           (fst (onopen (fst (connect false 0%nat initial))))).
  split; [discriminate | reflexivity].
Defined.

End Socket.

(** ** The unit of price *)

Section Scaling.

Import TechnicalAnalysis.

Variable c : Q.
Hypothesis c_positive : 0 < c.






























End Scaling.

Section ScalingWitness.

Import TechnicalAnalysis.


End ScalingWitness.

(** ** From prices to the technical signal *)

Section PricesToSignal.

Import TechnicalAnalysis.

Lemma shortTermTrend_of_cases (a5 a10 e9 e21 : bool) :
  let tr := shortTermTrend_of a5 a10 e9 e21 in
  (tr = "strongly bullish"
   <-> a5 = true /\ a10 = true /\ e9 = true /\ e21 = true)
  /\ (tr = "bullish"
      <-> ((a5 = true /\ a10 = true) \/ (e9 = true /\ e21 = true))
          /\ ~ (a5 = true /\ a10 = true /\ e9 = true /\ e21 = true))
  /\ (tr = "strongly bearish"
      <-> a5 = false /\ a10 = false /\ e9 = false /\ e21 = false)
  /\ (tr = "bearish"
      <-> ((a5 = false /\ a10 = false) \/ (e9 = false /\ e21 = false))
          /\ ~ (a5 = false /\ a10 = false /\ e9 = false /\ e21 = false)
          /\ ~ ((a5 = true /\ a10 = true) \/ (e9 = true /\ e21 = true)))
  /\ (tr = "neutral" <-> a5 <> a10 /\ e9 <> e21).
Proof.
  destruct a5, a10, e9, e21; cbn;
    repeat split; intros; try discriminate; try reflexivity; try congruence;
    try (left; split; reflexivity); try (right; split; reflexivity);
    intuition (try congruence; try discriminate).
Qed.

(** X28. Short-term trend: for an intraday timeframe the short-term trend is
    strongly bullish or strongly bearish exactly when the price is above, or
    not above, all four of SMA5, SMA10, EMA9 and EMA21; it is bullish as soon
    as the price is above both simple or both exponential averages, also when
    it is above neither of the other pair, and bearish only when it is below
    one pair and above at most one average of the other; it is neutral
    exactly when the two averages of each pair disagree. *)
Theorem shortTermTrend_of_positions :
  forall symbol timeframe first rest now,
  intraday timeframe = true ->
  exists ti st,
    technicalIndicators
      (performTechnicalAnalysis symbol timeframe (first :: rest) now) = Some ti
    /\ shortTerm ti = Some st
    /\ (shortTermTrend st = "strongly bullish"
        <-> aboveSMA5 st = true /\ aboveSMA10 st = true
            /\ aboveEMA9 st = true /\ aboveEMA21 st = true)
    /\ (shortTermTrend st = "bullish"
        <-> ((aboveSMA5 st = true /\ aboveSMA10 st = true)
             \/ (aboveEMA9 st = true /\ aboveEMA21 st = true))
            /\ ~ (aboveSMA5 st = true /\ aboveSMA10 st = true
                  /\ aboveEMA9 st = true /\ aboveEMA21 st = true))
    /\ (shortTermTrend st = "strongly bearish"
        <-> aboveSMA5 st = false /\ aboveSMA10 st = false
            /\ aboveEMA9 st = false /\ aboveEMA21 st = false)
    /\ (shortTermTrend st = "bearish"
        <-> ((aboveSMA5 st = false /\ aboveSMA10 st = false)
             \/ (aboveEMA9 st = false /\ aboveEMA21 st = false))
            /\ ~ (aboveSMA5 st = false /\ aboveSMA10 st = false
                  /\ aboveEMA9 st = false /\ aboveEMA21 st = false)
            /\ ~ ((aboveSMA5 st = true /\ aboveSMA10 st = true)
                  \/ (aboveEMA9 st = true /\ aboveEMA21 st = true)))
    /\ (shortTermTrend st = "neutral"
        <-> aboveSMA5 st <> aboveSMA10 st /\ aboveEMA9 st <> aboveEMA21 st).
Proof.
  intros symbol timeframe first rest now Hintra.
  destruct (perform_report symbol timeframe first rest now)
    as [ti [Hr [_ [_ [_ [_ [Hst _]]]]]]].
  rewrite Hintra in Hst.
  exists ti. eexists. rewrite Hr. cbn [technicalIndicators].
  split; [reflexivity|]. split; [exact Hst|].
  unfold shortTerm_of. cbv zeta.
  cbn [fst shortTermTrend aboveSMA5 aboveSMA10 aboveEMA9 aboveEMA21].
  apply shortTermTrend_of_cases.
Qed.

Lemma shortTermTrend_of_positions_witness :
  exists ti st,
    technicalIndicators (performTechnicalAnalysis "BTC" "1m" climb3 "") = Some ti
    /\ shortTerm ti = Some st
    /\ (shortTermTrend st = "neutral"
        <-> aboveSMA5 st <> aboveSMA10 st /\ aboveEMA9 st <> aboveEMA21 st).
Proof.
  destruct (shortTermTrend_of_positions "BTC" "1m" 1 [2; 3] "" eq_refl)
    as [ti [st [H1 [H2 [_ [_ [_ [_ H3]]]]]]]].
  exists ti, st. split; [exact H1|]. split; [exact H2 | exact H3].
Defined.

Ltac q_bools :=
  repeat match goal with
    | H : Js.gt _ _ = true |- _ => apply gt_spec in H
    | H : Js.gt _ _ = false |- _ => apply gt_false in H
    | H : Js.lt _ _ = true |- _ => apply lt_spec in H
    | H : Js.lt _ _ = false |- _ => apply lt_false in H
    end.

(** X29. From prices to the technical signal: the technical signal decision
    fusion derives from the labels of a non-empty series is SHORT exactly when
    the price is above neither the 7- nor the 25-period average and the
    oscillator is not below 30, or when that is not the case and the
    oscillator is above 70; otherwise it is LONG.  The long average plays no
    part in the direction. *)
Theorem technicalSignal_of_prices :
  forall symbol timeframe first rest now,
  exists ti,
    technicalIndicators
      (performTechnicalAnalysis symbol timeframe (first :: rest) now) = Some ti
    /\ let below := aboveSMA7 (sma ti) = false /\ aboveSMA25 (sma ti) = false in
       let signal :=
         TradingRecommendation.technicalSignal_of (trend ti) (rsiSignal ti) in
       (signal = "SHORT"
        <-> (below /\ ~ (exists v, rsi ti = Some v /\ v < 30))
            \/ (~ below /\ exists v, rsi ti = Some v /\ 70 < v))
       /\ (signal = "LONG"
           <-> (below /\ exists v, rsi ti = Some v /\ v < 30)
               \/ (~ below /\ ~ (exists v, rsi ti = Some v /\ 70 < v))).
Proof.
  intros symbol timeframe first rest now.
  destruct (perform_report symbol timeframe first rest now)
    as [ti [Hr [Hsma [Hrsi [Hsig [Htrend _]]]]]].
  exists ti. rewrite Hr. cbn [technicalIndicators]. split; [reflexivity|].
  rewrite Hsig, Htrend, Hsma, <- Hrsi. cbn [aboveSMA7 aboveSMA25].
  generalize (rsi ti). intros r.
  generalize (Js.gt (List.last (first :: rest) 0)
                (Js.nullish0 (calculateSMA (first :: rest) 7))).
  generalize (Js.gt (List.last (first :: rest) 0)
                (Js.nullish0 (calculateSMA (first :: rest) 25))).
  generalize (Js.gt (List.last (first :: rest) 0)
                (Js.nullish0
                   (calculateSMA (first :: rest)
                      (Z.min 99 (Js.length (first :: rest) - 1))))).
  intros a99 a25 a7. unfold rsiSignal_of.
  destruct r as [v|];
    [destruct (Js.gt v 70) eqn:E70; [|destruct (Js.lt v 30) eqn:E30]|];
    q_bools; destruct a7, a25, a99; cbn;
    split; split; intros H; try discriminate; try reflexivity;
    try (destruct H as [[[H1 H2] H3]|[H1 H3]]);
    try discriminate;
    try (exfalso; apply H1; split; reflexivity);
    try (exfalso; apply H3; eexists; split; [reflexivity | assumption]);
    try (destruct H3 as [x [Hx Hlt]]; try discriminate;
         injection Hx as <-; exfalso; lra);
    try (left; split; [split; reflexivity|];
         first [ eexists; split; [reflexivity | assumption]
               | intros [x [Hx Hlt]]; try discriminate;
                 injection Hx as <-; lra ]);
    try (right; split; [intros [H1 H2]; discriminate|];
         first [ eexists; split; [reflexivity | assumption]
               | intros [x [Hx Hlt]]; try discriminate;
                 injection Hx as <-; lra ]).
Qed.

End PricesToSignal.
